(** * Microblock submission at the directory service

    A shallow embedding of [DirectoryService::VerifyMicroblockCoSignature] and
    [DirectoryService::ProcessMicroblockSubmission]
    (src/libDirectoryService/MicroBlockProcessing.cpp), in the build of a
    directory node (IS_LOOKUP_NODE undefined, STAT_TEST undefined).

    The two member functions read and write the fields of the long-lived
    [DirectoryService] object and call into classes declared elsewhere
    (MicroBlock, MultiSig, Schnorr, ConsensusCommon, Serializable, ...).
    Those collaborators are interfaces here: the embedding is stated over any
    implementation of them, and a small concrete implementation is given
    further down to run the functions on concrete messages. *)

From Stdlib Require Import ZArith List Lia Bool.
From stdpp Require Import base option list gmap.

Import ListNotations.
Open Scope Z_scope.

(** ** Collaborators declared outside MicroBlockProcessing.cpp *)

(** The types and the pure collaborators the two functions use: the keys,
    peers and signatures of libCrypto/libNetwork, the [MicroBlock] class with
    the accessors called on it, the multi-signature primitives, and
    [TxBlock::GetMinSize()]. *)
Class Primitives := {
  PubKey : Type;
  PubKey_eq_dec :: EqDecision PubKey;
  PubKey_countable :: Countable PubKey;
  Peer : Type;
  Signature : Type;
  MicroBlock : Type;
  (** the type of [m_state] *)
  DirState : Type;
  (** the type of [m_mediator] *)
  Mediator : Type;
  (** [microBlock.GetHeader().GetMinerPubKey()] *)
  GetMinerPubKey : MicroBlock -> PubKey;
  (** [microBlock.GetHeader().GetTimestamp()] *)
  GetTimestamp : MicroBlock -> Z;
  (** [microBlock.GetHeaderSigBitmap()] *)
  GetHeaderSigBitmap : MicroBlock -> list bool;
  (** [microBlock.GetHeaderSig()] *)
  GetHeaderSig : MicroBlock -> Signature;
  (** [microBlock.Serialize(message, 0)] on an empty [message] *)
  Serialize : MicroBlock -> list Byte.byte;
  (** the constructor [MicroBlock(message, curr_offset)] *)
  MicroBlock_from : list Byte.byte -> nat -> MicroBlock;
  (** [operator<] of MicroBlock, the order of [std::set<MicroBlock>] *)
  MicroBlock_lt : MicroBlock -> MicroBlock -> bool;
  (** [MultiSig::AggregatePubKeys(keys)]; [None] is the null pointer *)
  AggregatePubKeys : list PubKey -> option PubKey;
  (** [Schnorr::GetInstance().Verify(message, signature, key)] *)
  Schnorr_Verify : list Byte.byte -> Signature -> PubKey -> bool;
  (** [TxBlock::GetMinSize()] *)
  TxBlock_GetMinSize : nat
}.

(** The fields of [DirectoryService] that the two functions touch.
    [m_shards] is a vector of shards, each a [map<PubKey, Peer>] kept as the
    list of its entries in iteration order; [m_microBlocks] is a
    [set<MicroBlock>] kept as the list of its elements in iteration order. *)
Record DirectoryService `{Primitives} := mkDirectoryService {
  m_state : DirState;
  m_consensusID : Z;
  m_shards : list (list (PubKey * Peer));
  m_publicKeyToShardIdMap : gmap PubKey Z;
  m_microBlocks : list MicroBlock;
  m_mediator : Mediator
}.

(** The actions [CheckState] is asked about; this file asks about one. *)
Inductive Action := PROCESS_MICROBLOCKSUBMISSION.

(** The member functions of [DirectoryService] that are called here and
    defined in other translation units. *)
Class Coordinator `{Primitives} := {
  (** [CheckState(action)] *)
  CheckState : DirectoryService -> Action -> bool;
  (** [CheckWhetherDSBlockIsFresh(dsblock_num)] *)
  CheckWhetherDSBlockIsFresh : DirectoryService -> Z -> bool;
  (** [RunConsensusOnFinalBlock()], as its effect on the object *)
  RunConsensusOnFinalBlock : DirectoryService -> DirectoryService
}.

(** ** Helpers of common/ and libUtils/ *)

(** [uint256_t] is boost's unchecked 256-bit unsigned integer: arithmetic
    wraps modulo 2^256. *)
Definition uint256_t (z : Z) : Z := z mod 2 ^ 256.

(** Modelled from the spec: [Serializable::GetNumber] is not in the sources;
    the wire layout of section 6 says all integers are fixed-width and
    big-endian, so the number is read from the [numerictype_len] bytes that
    start at [offset], most significant byte first. *)
Definition GetNumber (src : list Byte.byte) (offset numerictype_len : nat) : Z :=
  fold_left (fun acc b => acc * 256 + Z.of_N (Byte.to_N b))
            (take numerictype_len (drop offset src)) 0.

(** Modelled from the spec: [IsMessageSizeInappropriate] (libUtils/SanityChecks.h)
    is not in the sources; step 2 of section 4.5 rejects a message that is
    shorter than the length needed, counted from [offset]. *)
Definition IsMessageSizeInappropriate (messageSize offset minLengthNeeded : nat) : bool :=
  (messageSize - offset <? minLengthNeeded)%nat.

(** Modelled from the spec: [ConsensusCommon::NumForConsensus] is not in the
    sources; section 4.2 gives the threshold as floor(2n/3) + 1. *)
Definition NumForConsensus (shardSize : nat) : nat := (2 * shardSize / 3 + 1)%nat.

(** [sizeof(uint256_t)] and [sizeof(uint32_t)] *)
Definition sizeof_uint256_t : nat := 32.
Definition sizeof_uint32_t : nat := 4.

Arguments sizeof_uint256_t : simpl never.
Arguments sizeof_uint32_t : simpl never.
Arguments uint256_t : simpl never.
Arguments GetNumber : simpl never.
Arguments IsMessageSizeInappropriate : simpl never.
Arguments NumForConsensus : simpl never.

(** ** Outcomes, events and the execution monad *)

(** The exception of a bounds-checked [at()]. *)
Inductive Exception := out_of_range.

(** The places at which [VerifyMicroblockCoSignature] returns [false], in
    the order of the source, under the names of section 4.2. *)
Inductive VerificationError :=
| InsufficientSigners
| AggregationFailed
| SignatureInvalid.

(** The places at which [ProcessMicroblockSubmission] returns [false], in
    the order of the source, under the names of section 4.5. *)
Inductive ProcessingError :=
| WrongPhase
| TooShort
| StaleRound
| RoundMismatch
| UnknownProducer
| ShardMismatch
| CosignatureInvalid.

(** A call either returns [true] ([Done]), returns [false] at one of the
    places above ([Failed]), or is left by an exception ([Threw]). *)
Inductive Outcome (E A : Type) :=
| Done (a : A)
| Failed (e : E)
| Threw (x : Exception).
Arguments Done {E A} a.
Arguments Failed {E A} e.
Arguments Threw {E A} x.

(** The boolean a C++ caller sees; [None] when an exception propagates. *)
Definition returned {E A : Type} (o : Outcome E A) : option bool :=
  match o with
  | Done _ => Some true
  | Failed _ => Some false
  | Threw _ => None
  end.

(** What a call does besides returning: the calls it makes to its
    collaborators, the bounds-checked accesses, and the log lines of
    lines 168-185 ("n of m microblocks received", "Timestamp: t"). *)
Inductive Event :=
| CallCheckState
| CallIsMessageSizeInappropriate
| CallGetNumber (offset numerictype_len : nat)
| CallCheckWhetherDSBlockIsFresh (dsblock_num : Z)
| CallMicroBlock (offset : nat)
| CallFind
| CallVerifyMicroblockCoSignature
| CallShardsAt (shardId : Z)
| CallBitmapAt (index : nat)
| CallNumForConsensus (n : nat)
| CallAggregatePubKeys (nkeys : nat)
| CallSchnorrVerify
| CallInsert
| LogMicroblocksReceived (received shards : nat)
| LogTimestamp (timestamp : Z)
| CallRunConsensusOnFinalBlock.

Record Run (S E A : Type) := mkRun {
  trace : list Event;
  outcome : Outcome E A;
  final : S
}.
Arguments mkRun {S E A} trace outcome final.
Arguments trace {S E A} r.
Arguments outcome {S E A} r.
Arguments final {S E A} r.

Section Monad.
Context `{Primitives}.

(** A computation over the [DirectoryService] object. *)
Definition M (E A : Type) : Type := DirectoryService -> Run DirectoryService E A.

Definition ret {E A} (a : A) : M E A := fun s => mkRun [] (Done a) s.

Definition bind {E A B} (c : M E A) (k : A -> M E B) : M E B := fun s =>
  match c s with
  | mkRun t (Done a) s' =>
      match k a s' with
      | mkRun t' o s'' => mkRun (t ++ t') o s''
      end
  | mkRun t (Failed e) s' => mkRun t (Failed e) s'
  | mkRun t (Threw x) s' => mkRun t (Threw x) s'
  end.

(** [return false;] at the place named [e] *)
Definition fail {E A} (e : E) : M E A := fun s => mkRun [] (Failed e) s.

Definition throw {E A} (x : Exception) : M E A := fun s => mkRun [] (Threw x) s.

Definition emit {E} (ev : Event) : M E unit := fun s => mkRun [ev] (Done tt) s.

Definition emit_all {E} (evs : list Event) : M E unit := fun s => mkRun evs (Done tt) s.

Definition get {E} : M E DirectoryService := fun s => mkRun [] (Done s) s.

Definition put {E} (s' : DirectoryService) : M E unit := fun _ => mkRun [] (Done tt) s'.

(** Calling a function with its own failure places from one that reports
    them all as [e]. *)
Definition call {E E' A} (e : E') (c : M E A) : M E' A := fun s =>
  match c s with
  | mkRun t (Done a) s' => mkRun t (Done a) s'
  | mkRun t (Failed _) s' => mkRun t (Failed e) s'
  | mkRun t (Threw x) s' => mkRun t (Threw x) s'
  end.

End Monad.

Notation "x <- c ;; k" := (bind c (fun x => k))
  (at level 100, c at next level, right associativity).
Notation "c ;;; k" := (bind c (fun _ => k))
  (at level 100, right associativity).

(** ** The two functions of MicroBlockProcessing.cpp *)

Section MicroBlockProcessing.
Context `{Coordinator}.

(** [m_microBlocks.insert(microBlock)] on a [std::set<MicroBlock>]: the set
    is walked in order; an element equivalent to [x] (neither is less than
    the other) keeps its place and [x] is dropped. *)
Fixpoint set_insert (x : MicroBlock) (l : list MicroBlock) : list MicroBlock :=
  match l with
  | [] => [x]
  | y :: l' =>
      if MicroBlock_lt x y then x :: y :: l'
      else if MicroBlock_lt y x then y :: set_insert x l'
      else y :: l'
  end.

(** The object after [m_microBlocks.insert(microBlock)]. *)
Definition insert_microBlock (s : DirectoryService) (microBlock : MicroBlock)
    : DirectoryService :=
  mkDirectoryService _ (m_state s) (m_consensusID s) (m_shards s)
    (m_publicKeyToShardIdMap s)
    (set_insert microBlock (m_microBlocks s)) (m_mediator s).

(** Lines 52-60: [for (auto & kv : shard)], with [index], [count] and [keys]
    as loop state. [collectiveSigBitmap.at(index)] throws when [index] is
    not a position of the bitmap. *)
Fixpoint VerifyMicroblockCoSignature_loop
    (collectiveSigBitmap : list bool) (shard : list (PubKey * Peer))
    (index count : nat) (keys : list PubKey)
    : M VerificationError (list PubKey * nat) :=
  match shard with
  | [] => ret (keys, count)
  | kv :: rest =>
      emit (CallBitmapAt index) ;;;
      match collectiveSigBitmap !! index with
      | None => throw out_of_range
      | Some true =>
          VerifyMicroblockCoSignature_loop collectiveSigBitmap rest
            (S index) (S count) (keys ++ [kv.1])
      | Some false =>
          VerifyMicroblockCoSignature_loop collectiveSigBitmap rest
            (S index) count keys
      end
  end.

(** Lines 41-85. *)
Definition VerifyMicroblockCoSignature (microBlock : MicroBlock) (shardId : Z)
    : M VerificationError unit :=
  emit CallVerifyMicroblockCoSignature ;;;
  let collectiveSigBitmap := GetHeaderSigBitmap microBlock in
  s <- get ;;
  emit (CallShardsAt shardId) ;;;
  match m_shards s !! Z.to_nat shardId with
  | None => throw out_of_range
  | Some shard =>
      r <- VerifyMicroblockCoSignature_loop collectiveSigBitmap shard 0 0 [] ;;
      let keys := r.1 in
      let count := r.2 in
      emit (CallNumForConsensus (length collectiveSigBitmap)) ;;;
      if negb (count =? NumForConsensus (length collectiveSigBitmap))%nat
      then fail InsufficientSigners
      else
        emit (CallAggregatePubKeys (length keys)) ;;;
        match AggregatePubKeys keys with
        | None => fail AggregationFailed
        | Some aggregatedKey =>
            let message := Serialize microBlock in
            emit CallSchnorrVerify ;;;
            if negb (Schnorr_Verify message (GetHeaderSig microBlock) aggregatedKey)
            then fail SignatureInvalid
            else ret tt
        end
  end.

(** Lines 88-201. [from] is not used by the body. *)
Definition ProcessMicroblockSubmission
    (message : list Byte.byte) (offset : nat) (from : Peer)
    : M ProcessingError unit :=
  s <- get ;;
  emit CallCheckState ;;;
  if negb (CheckState s PROCESS_MICROBLOCKSUBMISSION) then fail WrongPhase else
  emit CallIsMessageSizeInappropriate ;;;
  if IsMessageSizeInappropriate (length message) offset
       (sizeof_uint256_t + sizeof_uint32_t + sizeof_uint32_t + TxBlock_GetMinSize)%nat
  then fail TooShort else
  let curr_offset := offset in
  (* 32-byte block number *)
  emit (CallGetNumber curr_offset sizeof_uint256_t) ;;;
  let DSBlockNum := GetNumber message curr_offset sizeof_uint256_t in
  let curr_offset := (curr_offset + sizeof_uint256_t)%nat in
  (* Check block number *)
  s <- get ;;
  emit (CallCheckWhetherDSBlockIsFresh (uint256_t (DSBlockNum + 1))) ;;;
  if negb (CheckWhetherDSBlockIsFresh s (uint256_t (DSBlockNum + 1)))
  then fail StaleRound else
  (* 4-byte consensus id *)
  emit (CallGetNumber curr_offset sizeof_uint32_t) ;;;
  let consensusID := GetNumber message curr_offset sizeof_uint32_t in
  let curr_offset := (curr_offset + sizeof_uint32_t)%nat in
  s <- get ;;
  if negb (consensusID =? m_consensusID s) then fail RoundMismatch else
  (* 4-byte shard ID *)
  emit (CallGetNumber curr_offset sizeof_uint32_t) ;;;
  let shardId := GetNumber message curr_offset sizeof_uint32_t in
  let curr_offset := (curr_offset + sizeof_uint32_t)%nat in
  (* Tx microblock *)
  emit (CallMicroBlock curr_offset) ;;;
  let microBlock := MicroBlock_from message curr_offset in
  let pubKey := GetMinerPubKey microBlock in
  (* Check public key - shard ID mapping *)
  s <- get ;;
  emit CallFind ;;;
  match m_publicKeyToShardIdMap s !! pubKey with
  | None => fail UnknownProducer
  | Some second =>
      if negb (second =? shardId) then fail ShardMismatch else
      (* Verify the co-signature *)
      call CosignatureInvalid (VerifyMicroblockCoSignature microBlock shardId) ;;;
      (* lock_guard<mutex> g(m_mutexMicroBlocks) *)
      s <- get ;;
      emit CallInsert ;;;
      put (insert_microBlock s microBlock) ;;;
      s <- get ;;
      emit (LogMicroblocksReceived (length (m_microBlocks s)) (length (m_shards s))) ;;;
      if (length (m_microBlocks s) =? length (m_shards s))%nat
      then
        (* for (auto & microBlock : m_microBlocks) *)
        emit_all (map (fun microBlock => LogTimestamp (GetTimestamp microBlock))
                      (m_microBlocks s)) ;;;
        emit CallRunConsensusOnFinalBlock ;;;
        put (RunConsensusOnFinalBlock s)
      else ret tt
  end.

(** A sequence of calls on the same object, one after the other; each call
    is [(message, offset, from)]. The result keeps every call's run. *)
Fixpoint ProcessAll (calls : list (list Byte.byte * nat * Peer)) (s : DirectoryService)
    : list (Run DirectoryService ProcessingError unit) :=
  match calls with
  | [] => []
  | c :: rest =>
      let r := ProcessMicroblockSubmission c.1.1 c.1.2 c.2 s in
      r :: ProcessAll rest (final r)
  end.

(** ** Notions used to state the properties *)

(** The keys the loop of lines 52-60 selects when it starts at position
    [index]: the roster members whose bitmap position holds [true]. *)
Fixpoint signers (collectiveSigBitmap : list bool) (shard : list (PubKey * Peer))
    (index : nat) : list PubKey :=
  match shard with
  | [] => []
  | kv :: rest =>
      match collectiveSigBitmap !! index with
      | Some true => kv.1 :: signers collectiveSigBitmap rest (S index)
      | _ => signers collectiveSigBitmap rest (S index)
      end
  end.

(** Equivalence under [operator<], as [std::set] understands it. *)
Definition equivalent (x y : MicroBlock) : bool :=
  negb (MicroBlock_lt x y) && negb (MicroBlock_lt y x).

(** What [std::set] requires of [operator<]. *)
Record StrictWeakOrder : Prop := {
  lt_irrefl : forall x, MicroBlock_lt x x = false;
  lt_trans : forall x y z,
    MicroBlock_lt x y = true -> MicroBlock_lt y z = true -> MicroBlock_lt x z = true;
  equivalent_trans : forall x y z,
    equivalent x y = true -> equivalent y z = true -> equivalent x z = true
}.

(** The representation invariant of the set: strictly increasing. *)
Fixpoint ordered (l : list MicroBlock) : Prop :=
  match l with
  | [] => True
  | x :: l' => Forall (fun y => MicroBlock_lt x y = true) l' /\ ordered l'
  end.

(** The events up to and including the registry lookup of line 144. *)
Definition decode_events (message : list Byte.byte) (offset : nat) : list Event :=
  [CallCheckState; CallIsMessageSizeInappropriate;
   CallGetNumber offset sizeof_uint256_t;
   CallCheckWhetherDSBlockIsFresh
     (uint256_t (GetNumber message offset sizeof_uint256_t + 1));
   CallGetNumber (offset + sizeof_uint256_t) sizeof_uint32_t;
   CallGetNumber (offset + sizeof_uint256_t + sizeof_uint32_t) sizeof_uint32_t;
   CallMicroBlock (offset + sizeof_uint256_t + sizeof_uint32_t + sizeof_uint32_t);
   CallFind].

(** The events of lines 165-188 on the object [s'] that holds the inserted
    microblock, and the object they leave. *)
Definition commit_events (s' : DirectoryService) : list Event :=
  [CallInsert; LogMicroblocksReceived (length (m_microBlocks s')) (length (m_shards s'))]
  ++ (if (length (m_microBlocks s') =? length (m_shards s'))%nat
      then map (fun microBlock => LogTimestamp (GetTimestamp microBlock))
               (m_microBlocks s')
           ++ [CallRunConsensusOnFinalBlock]
      else []).

Definition commit_final (s' : DirectoryService) : DirectoryService :=
  if (length (m_microBlocks s') =? length (m_shards s'))%nat
  then RunConsensusOnFinalBlock s' else s'.

End MicroBlockProcessing.

Arguments VerifyMicroblockCoSignature : simpl never.

(** The events of the verifier; none of them belongs to lines 165-188. *)
Definition verifier_event (ev : Event) : bool :=
  match ev with
  | CallVerifyMicroblockCoSignature | CallShardsAt _ | CallBitmapAt _
  | CallNumForConsensus _ | CallAggregatePubKeys _ | CallSchnorrVerify => true
  | _ => false
  end.

(** The number of [true] positions of a bitmap. *)
Definition count_true (bitmap : list bool) : nat := length (List.filter id bitmap).

(** How often a trace calls [RunConsensusOnFinalBlock]. *)
Definition is_trigger (ev : Event) : bool :=
  match ev with
  | CallRunConsensusOnFinalBlock => true
  | _ => false
  end.

Definition triggers (t : list Event) : nat := length (List.filter is_trigger t).

(** ** A concrete implementation of the collaborators

    Small stand-ins for the classes that live outside this file, enough to
    run the two functions on concrete messages. Keys, peers and signatures
    are numbers. A microblock is four bytes (producer key, timestamp,
    content digest, signature) followed by one byte per bitmap position. *)
Module Sample.

Definition byte_val (b : Byte.byte) : Z := Z.of_N (Byte.to_N b).

Record block := mkBlock {
  miner : Byte.byte;
  timestamp : Byte.byte;
  digest : Byte.byte;
  headerSig : Byte.byte;
  headerSigBitmap : list bool
}.

Definition block_from (message : list Byte.byte) (offset : nat) : block :=
  match drop offset message with
  | m :: t :: d :: s :: bits =>
      mkBlock m t d s (map (fun b => negb (byte_val b =? 0)) bits)
  | _ => mkBlock Byte.x00 Byte.x00 Byte.x00 Byte.x00 []
  end.

Definition block_serialize (b : block) : list Byte.byte :=
  [miner b; timestamp b; digest b].

(** Modelled from the spec: section 3 says summaries are compared by the
    content digest combined with the shard id; the shard is the producer's,
    so the order is on (digest, producer key). *)
Definition block_lt (a b : block) : bool :=
  (byte_val (digest a) <? byte_val (digest b))
  || ((byte_val (digest a) =? byte_val (digest b))
      && (byte_val (miner a) <? byte_val (miner b))).

(** A linear stand-in for the multi-signature: the aggregate of a non-empty
    list of keys is their sum, and a signature is valid for a message under a
    key when it equals key * (1 + sum of the message bytes) mod 251. *)
Definition aggregate (keys : list Z) : option Z :=
  match keys with
  | [] => None
  | _ => Some (fold_right Z.add 0 keys)
  end.

Definition sign (message : list Byte.byte) (key : Z) : Z :=
  (key * (1 + fold_right Z.add 0 (map byte_val message))) mod 251.

Definition verify (message : list Byte.byte) (signature : Z) (key : Z) : bool :=
  signature =? sign message key.

(** Modelled from the spec: the phases of section 4.3. *)
Inductive phase :=
| AwaitingSubmissions
| SubmissionsComplete
| ConsensusInProgress
| RoundFinalized.

#[export] Instance primitives : Primitives := {
  PubKey := Z;
  Peer := Z;
  Signature := Z;
  MicroBlock := block;
  DirState := phase;
  Mediator := Z;
  GetMinerPubKey b := byte_val (miner b);
  GetTimestamp b := byte_val (timestamp b);
  GetHeaderSigBitmap := headerSigBitmap;
  GetHeaderSig b := byte_val (headerSig b);
  Serialize := block_serialize;
  MicroBlock_from := block_from;
  MicroBlock_lt := block_lt;
  AggregatePubKeys := aggregate;
  Schnorr_Verify := verify;
  TxBlock_GetMinSize := 4%nat
}.

(** Modelled from the spec: submissions are processed only in the phase
    AwaitingSubmissions (section 4.3, gate contract). *)
Definition check_state (s : DirectoryService) (a : Action) : bool :=
  match m_state s with
  | AwaitingSubmissions => true
  | _ => false
  end.

(** Modelled from the spec: the decoded number plus one is fresh when it is
    the expected epoch, kept in [m_mediator] (section 4.5, step 3). *)
Definition check_fresh (s : DirectoryService) (dsblock_num : Z) : bool :=
  dsblock_num =? m_mediator s.

(** Modelled from the spec: starting the next consensus round leaves the
    submission phase (section 4.3). *)
Definition run_consensus (s : DirectoryService) : DirectoryService :=
  mkDirectoryService _ ConsensusInProgress (m_consensusID s) (m_shards s)
    (m_publicKeyToShardIdMap s) (m_microBlocks s) (m_mediator s).

(** A coordinator whose trigger leaves the object as it is: the phase stays
    AwaitingSubmissions after the completion call. *)
Definition run_consensus_idle (s : DirectoryService) : DirectoryService := s.

#[export] Instance coordinator : Coordinator := {
  CheckState := check_state;
  CheckWhetherDSBlockIsFresh := check_fresh;
  RunConsensusOnFinalBlock := run_consensus
}.

Definition idle_coordinator : Coordinator := {|
  CheckState := check_state;
  CheckWhetherDSBlockIsFresh := check_fresh;
  RunConsensusOnFinalBlock := run_consensus_idle
|}.

(** Two shards of four members each; the expected epoch is 5 and the
    consensus id is 7. *)
Definition shardA : list (Z * Z) := [(11, 101); (12, 102); (13, 103); (14, 104)].
Definition shardB : list (Z * Z) := [(21, 201); (22, 202); (23, 203); (24, 204)].

Definition registry : gmap Z Z :=
  list_to_map [(11, 0); (12, 0); (13, 0); (14, 0); (21, 1); (22, 1); (23, 1); (24, 1)].

Definition ds0 : DirectoryService :=
  mkDirectoryService _ AwaitingSubmissions 7 [shardA; shardB] registry [] 5.

Definition shardC : list (Z * Z) := [(31, 301); (32, 302); (33, 303)].

Definition registry3 : gmap Z Z :=
  list_to_map [(11, 0); (12, 0); (13, 0); (14, 0); (21, 1); (22, 1); (23, 1); (24, 1);
               (31, 2); (32, 2); (33, 2)].

(** Three shards, the third with three members. *)
Definition ds3 : DirectoryService :=
  mkDirectoryService _ AwaitingSubmissions 7 [shardA; shardB; shardC] registry3 [] 5.

(** The object of [ds0] while the next consensus round runs. *)
Definition ds_busy : DirectoryService :=
  mkDirectoryService _ ConsensusInProgress 7 [shardA; shardB] registry [] 5.

(** The fixed header: the block number (32 bytes, here below 256), the
    consensus id 7, then the shard id. *)
Definition header (epoch shard : Byte.byte) : list Byte.byte :=
  repeat Byte.x00 31 ++ [epoch]
  ++ [Byte.x00; Byte.x00; Byte.x00; Byte.x07]
  ++ [Byte.x00; Byte.x00; Byte.x00; shard].

Definition bit (b : bool) : Byte.byte := if b then Byte.x01 else Byte.x00.

(** The signature byte of the block [m; t; d] signed by [keys]. *)
Definition signature_byte (m t d : Byte.byte) (keys : list Z) : Byte.byte :=
  match Byte.of_N (Z.to_N (sign [m; t; d] (fold_right Z.add 0 keys))) with
  | Some b => b
  | None => Byte.x00
  end.

Definition summary (m t d : Byte.byte) (keys : list Z) (bits : list bool)
    : list Byte.byte :=
  [m; t; d; signature_byte m t d keys] ++ map bit bits.

(** A submission for the round that closes block 4. *)
Definition submission (shard m t d : Byte.byte) (keys : list Z) (bits : list bool)
    : list Byte.byte :=
  header Byte.x04 shard ++ summary m t d keys bits.

(** Shard 0, produced by 11, signed by 11, 12 and 13. *)
Definition msgA : list Byte.byte :=
  submission Byte.x00 Byte.x0b Byte.x01 Byte.x05 [11; 12; 13] [true; true; true; false].

(** Shard 0 again, another content digest, signed by 11, 12 and 14. *)
Definition msgA' : list Byte.byte :=
  submission Byte.x00 Byte.x0b Byte.x01 Byte.x06 [11; 12; 14] [true; true; false; true].

(** Shard 1, produced by 21, signed by 21, 22 and 24. *)
Definition msgB : list Byte.byte :=
  submission Byte.x01 Byte.x15 Byte.x01 Byte.x06 [21; 22; 24] [true; true; false; true].

(** Shard 0, signed by all four members. *)
Definition msgAll : list Byte.byte :=
  submission Byte.x00 Byte.x0b Byte.x01 Byte.x05 [11; 12; 13; 14] [true; true; true; true].

(** Shard 0, signed by all four members, with a bitmap of five positions. *)
Definition msgFive : list Byte.byte :=
  submission Byte.x00 Byte.x0b Byte.x01 Byte.x05 [11; 12; 13; 14]
    [true; true; true; true; false].

(** Shard 0, signed by 11 and 12 only. *)
Definition msgTwo : list Byte.byte :=
  submission Byte.x00 Byte.x0b Byte.x01 Byte.x05 [11; 12] [true; true; false; false].

(** Shard 0, with a bitmap of three positions for a roster of four. *)
Definition msgShort : list Byte.byte :=
  submission Byte.x00 Byte.x0b Byte.x01 Byte.x05 [11; 12; 13] [true; true; true].

(** Shard 2, whose roster has three members, with a bitmap of four
    positions, signed by 31, 32 and 33. *)
Definition msgLong : list Byte.byte :=
  submission Byte.x02 Byte.x1f Byte.x01 Byte.x05 [31; 32; 33] [true; true; true; false].

(** A producer key that is in no shard, and a producer of shard 1 under
    the shard id 0. *)
Definition msgUnknown : list Byte.byte :=
  submission Byte.x00 Byte.x63 Byte.x01 Byte.x05 [11; 12; 13] [true; true; true; false].

Definition msgMismatch : list Byte.byte :=
  submission Byte.x00 Byte.x15 Byte.x01 Byte.x05 [11; 12; 13] [true; true; true; false].

(** A submission whose block number is 9. *)
Definition msgStale : list Byte.byte :=
  header Byte.x09 Byte.x00
  ++ summary Byte.x0b Byte.x01 Byte.x05 [11; 12; 13] [true; true; true; false].

(** The microblock a submission carries. *)
Definition block_of (message : list Byte.byte) : block := block_from message 40.

(** Every call reads its message from offset 0; the sender is not used. *)
Definition sender : Z := 0.

Definition from_start (messages : list (list Byte.byte))
    : list (list Byte.byte * nat * Z) :=
  map (fun message => (message, 0%nat, sender)) messages.

(** A submission for consensus id 8. *)
Definition msgOtherRound : list Byte.byte :=
  repeat Byte.x00 31 ++ [Byte.x04]
  ++ [Byte.x00; Byte.x00; Byte.x00; Byte.x08]
  ++ [Byte.x00; Byte.x00; Byte.x00; Byte.x00]
  ++ summary Byte.x0b Byte.x01 Byte.x05 [11; 12; 13] [true; true; true; false].

(** Shard 2, whose roster has three members, with a bitmap of five
    positions. *)
Definition msgWide : list Byte.byte :=
  submission Byte.x02 Byte.x1f Byte.x01 Byte.x05 [31; 32; 33]
    [true; true; true; false; false].

(** A registry that gives the key 11 the shard id 5, with two shards. *)
Definition ds_gap : DirectoryService :=
  mkDirectoryService _ AwaitingSubmissions 7 [shardA; shardB]
    (list_to_map [(11, 5)]) [] 5.

Definition msgGap : list Byte.byte :=
  submission Byte.x05 Byte.x0b Byte.x01 Byte.x05 [11; 12; 13] [true; true; true; false].

End Sample.

(** ** Properties *)

Section Properties.
Context `{Coordinator}.

(** *** The signer-selection loop *)

Lemma loop_final (bitmap : list bool) (shard : list (PubKey * Peer)) :
  forall index count keys s,
    final (VerifyMicroblockCoSignature_loop bitmap shard index count keys s) = s.
Proof.
  induction shard as [|kv rest IH]; intros index count keys s; cbn; [reflexivity|].
  unfold bind, emit, throw; cbn.
  destruct (bitmap !! index) as [[|]|]; cbn; [ | |reflexivity].
  - specialize (IH (S index) (S count) (keys ++ [kv.1]) s).
    destruct (VerifyMicroblockCoSignature_loop _ _ _ _ _ _) as [t [a|e|x] f];
      cbn in *; exact IH.
  - specialize (IH (S index) count keys s).
    destruct (VerifyMicroblockCoSignature_loop _ _ _ _ _ _) as [t [a|e|x] f];
      cbn in *; exact IH.
Qed.

(** With every roster position inside the bitmap the loop looks each
    position up once, in order, and returns the selected keys and their
    number. *)
Lemma loop_in_bounds (bitmap : list bool) (shard : list (PubKey * Peer)) :
  forall index count keys s,
    (index + length shard <= length bitmap)%nat ->
    VerifyMicroblockCoSignature_loop bitmap shard index count keys s
    = mkRun (map CallBitmapAt (seq index (length shard)))
            (Done (keys ++ signers bitmap shard index,
                   (count + length (signers bitmap shard index))%nat))
            s.
Proof.
  induction shard as [|kv rest IH]; intros index count keys s Hlen.
  - cbn. unfold ret. rewrite app_nil_r, Nat.add_0_r. reflexivity.
  - cbn [VerifyMicroblockCoSignature_loop signers length seq map].
    cbn [length] in Hlen.
    destruct (lookup_lt_is_Some_2 bitmap index ltac:(lia)) as [b Hb].
    unfold bind, emit. rewrite Hb.
    destruct b; rewrite IH by lia; cbn.
    + rewrite <- app_assoc. cbn. do 3 f_equal. lia.
    + reflexivity.
Qed.

(** With the bitmap ending inside the roster the loop reaches the lookup at
    the position just past the bitmap, and that lookup throws. *)
Lemma loop_out_of_bounds (bitmap : list bool) (shard : list (PubKey * Peer)) :
  forall index count keys s,
    (index <= length bitmap < index + length shard)%nat ->
    VerifyMicroblockCoSignature_loop bitmap shard index count keys s
    = mkRun (map CallBitmapAt (seq index (S (length bitmap - index))))
            (Threw out_of_range) s.
Proof.
  induction shard as [|kv rest IH]; intros index count keys s Hlen.
  - cbn in Hlen. lia.
  - cbn [VerifyMicroblockCoSignature_loop length] in *.
    unfold bind, emit, throw.
    destruct (bitmap !! index) as [b|] eqn:Hb.
    + apply lookup_lt_Some in Hb.
      replace (S (length bitmap - index)) with (S (S (length bitmap - S index))) by lia.
      destruct b; rewrite IH by lia; reflexivity.
    + apply lookup_ge_None in Hb.
      replace (length bitmap - index)%nat with 0%nat by lia. reflexivity.
Qed.

Lemma signers_length_le (bitmap : list bool) (shard : list (PubKey * Peer)) :
  forall index, (length (signers bitmap shard index) <= length shard)%nat.
Proof.
  induction shard as [|kv rest IH]; intros index; cbn; [lia|].
  destruct (bitmap !! index) as [[|]|]; cbn; specialize (IH (S index)); lia.
Qed.

(** When the bitmap is as long as the roster the number of selected keys is
    the number of [true] positions. *)
Lemma signers_count (shard : list (PubKey * Peer)) :
  forall (bitmap : list bool) (prefix : list bool),
    length shard = length bitmap ->
    length (signers (prefix ++ bitmap) shard (length prefix)) = count_true bitmap.
Proof.
  induction shard as [|kv rest IH]; intros bitmap prefix Hlen.
  - destruct bitmap; [reflexivity|discriminate].
  - destruct bitmap as [|b bitmap]; [discriminate|].
    cbn [signers].
    rewrite lookup_app_r by lia. rewrite Nat.sub_diag. cbn [lookup list_lookup].
    specialize (IH bitmap (prefix ++ [b]) ltac:(cbn in Hlen; lia)).
    rewrite <- app_assoc in IH. cbn [app] in IH.
    rewrite length_app in IH. cbn [length] in IH.
    rewrite Nat.add_1_r in IH.
    unfold count_true in *. destruct b; cbn; rewrite IH; reflexivity.
Qed.


(** *** The co-signature verifier *)

(** The run of the verifier when the bitmap covers the roster. *)
Lemma verify_in_bounds (microBlock : MicroBlock) (shardId : Z)
    (shard : list (PubKey * Peer)) (s : DirectoryService) :
  m_shards s !! Z.to_nat shardId = Some shard ->
  (length shard <= length (GetHeaderSigBitmap microBlock))%nat ->
  let bitmap := GetHeaderSigBitmap microBlock in
  let keys := signers bitmap shard 0 in
  let lookups :=
    [CallVerifyMicroblockCoSignature; CallShardsAt shardId]
    ++ map CallBitmapAt (seq 0 (length shard))
    ++ [CallNumForConsensus (length bitmap)] in
  VerifyMicroblockCoSignature microBlock shardId s
  = if (length keys =? NumForConsensus (length bitmap))%nat
    then
      match AggregatePubKeys keys with
      | None =>
          mkRun (lookups ++ [CallAggregatePubKeys (length keys)])
                (Failed AggregationFailed) s
      | Some aggregatedKey =>
          mkRun (lookups ++ [CallAggregatePubKeys (length keys); CallSchnorrVerify])
                (if Schnorr_Verify (Serialize microBlock) (GetHeaderSig microBlock)
                      aggregatedKey
                 then Done tt else Failed SignatureInvalid)
                s
      end
    else mkRun lookups (Failed InsufficientSigners) s.
Proof.
  intros Hshard Hlen bitmap keys lookups.
  unfold VerifyMicroblockCoSignature, bind, emit, get, fail, ret. cbn.
  rewrite Hshard.
  rewrite (loop_in_bounds _ _ 0%nat 0%nat [] s) by (cbn; lia).
  cbn. fold bitmap keys.
  destruct (length keys =? NumForConsensus (length bitmap))%nat; cbn.
  - destruct (AggregatePubKeys keys) as [aggregatedKey|]; cbn.
    + destruct (Schnorr_Verify _ _ _); cbn; unfold lookups; cbn;
        rewrite <- ?app_assoc; reflexivity.
    + unfold lookups; cbn; rewrite <- ?app_assoc; reflexivity.
  - reflexivity.
Qed.

(** The run of the verifier when the bitmap ends inside the roster. *)
Lemma verify_out_of_bounds (microBlock : MicroBlock) (shardId : Z)
    (shard : list (PubKey * Peer)) (s : DirectoryService) :
  m_shards s !! Z.to_nat shardId = Some shard ->
  (length (GetHeaderSigBitmap microBlock) < length shard)%nat ->
  VerifyMicroblockCoSignature microBlock shardId s
  = mkRun ([CallVerifyMicroblockCoSignature; CallShardsAt shardId]
           ++ map CallBitmapAt (seq 0 (S (length (GetHeaderSigBitmap microBlock)))))
          (Threw out_of_range) s.
Proof.
  intros Hshard Hlen.
  unfold VerifyMicroblockCoSignature, bind, emit, get, fail, ret. cbn.
  rewrite Hshard.
  rewrite (loop_out_of_bounds _ _ 0%nat 0%nat [] s) by lia.
  rewrite Nat.sub_0_r. reflexivity.
Qed.

(** The run of the verifier when the shard id is no position of [m_shards]. *)
Lemma verify_no_shard (microBlock : MicroBlock) (shardId : Z) (s : DirectoryService) :
  m_shards s !! Z.to_nat shardId = None ->
  VerifyMicroblockCoSignature microBlock shardId s
  = mkRun [CallVerifyMicroblockCoSignature; CallShardsAt shardId]
          (Threw out_of_range) s.
Proof.
  intros Hshard.
  unfold VerifyMicroblockCoSignature, bind, emit, get, fail, throw, ret. cbn.
  rewrite Hshard. reflexivity.
Qed.

(** The verifier leaves the object as it found it. *)
Lemma verify_final (microBlock : MicroBlock) (shardId : Z) (s : DirectoryService) :
  final (VerifyMicroblockCoSignature microBlock shardId s) = s.
Proof.
  destruct (m_shards s !! Z.to_nat shardId) as [shard|] eqn:Hshard.
  - destruct (le_lt_dec (length shard) (length (GetHeaderSigBitmap microBlock))) as [Hle|Hlt].
    + rewrite (verify_in_bounds _ _ _ _ Hshard Hle).
      cbv zeta.
      destruct (_ =? _)%nat; [destruct (AggregatePubKeys _)|]; reflexivity.
    + rewrite (verify_out_of_bounds _ _ _ _ Hshard Hlt). reflexivity.
  - rewrite (verify_no_shard _ _ _ Hshard). reflexivity.
Qed.

Lemma verify_trace (microBlock : MicroBlock) (shardId : Z) (s : DirectoryService) :
  forallb verifier_event (trace (VerifyMicroblockCoSignature microBlock shardId s)) = true.
Proof.
  assert (Hat : forall i n, forallb verifier_event (map CallBitmapAt (seq i n)) = true).
  { intros i n; revert i; induction n as [|n IH]; intros i; cbn; [reflexivity|apply IH]. }
  destruct (m_shards s !! Z.to_nat shardId) as [shard|] eqn:Hshard.
  - destruct (le_lt_dec (length shard) (length (GetHeaderSigBitmap microBlock))) as [Hle|Hlt].
    + rewrite (verify_in_bounds _ _ _ _ Hshard Hle).
      cbv zeta.
      destruct (_ =? _)%nat; [destruct (AggregatePubKeys _)|]; cbn;
        rewrite ?forallb_app, ?Hat; reflexivity.
    + rewrite (verify_out_of_bounds _ _ _ _ Hshard Hlt). cbn [trace].
      rewrite forallb_app, Hat. reflexivity.
  - rewrite (verify_no_shard _ _ _ Hshard). reflexivity.
Qed.

(** *** The submission processor *)

Ltac run_process :=
  unfold ProcessMicroblockSubmission, bind, emit, emit_all, get, fail, put, ret, call;
  cbn.

(** The run of a call that the phase gate stops. *)
Lemma process_wrong_phase (message : list Byte.byte) (offset : nat) (from : Peer)
    (s : DirectoryService) :
  CheckState s PROCESS_MICROBLOCKSUBMISSION = false ->
  ProcessMicroblockSubmission message offset from s
  = mkRun [CallCheckState] (Failed WrongPhase) s.
Proof. intros Hgate. run_process. rewrite Hgate. reflexivity. Qed.

(** The run of a call that the size check stops. *)
Lemma process_too_short (message : list Byte.byte) (offset : nat) (from : Peer)
    (s : DirectoryService) :
  CheckState s PROCESS_MICROBLOCKSUBMISSION = true ->
  IsMessageSizeInappropriate (length message) offset
    (sizeof_uint256_t + sizeof_uint32_t + sizeof_uint32_t + TxBlock_GetMinSize) = true ->
  ProcessMicroblockSubmission message offset from s
  = mkRun [CallCheckState; CallIsMessageSizeInappropriate] (Failed TooShort) s.
Proof. intros Hgate Hsize. run_process. rewrite Hgate; cbn. rewrite Hsize. reflexivity. Qed.

(** The run of a call that the freshness check stops. *)
Lemma process_stale (message : list Byte.byte) (offset : nat) (from : Peer)
    (s : DirectoryService) :
  CheckState s PROCESS_MICROBLOCKSUBMISSION = true ->
  IsMessageSizeInappropriate (length message) offset
    (sizeof_uint256_t + sizeof_uint32_t + sizeof_uint32_t + TxBlock_GetMinSize) = false ->
  CheckWhetherDSBlockIsFresh s
    (uint256_t (GetNumber message offset sizeof_uint256_t + 1)) = false ->
  ProcessMicroblockSubmission message offset from s
  = mkRun [CallCheckState; CallIsMessageSizeInappropriate;
           CallGetNumber offset sizeof_uint256_t;
           CallCheckWhetherDSBlockIsFresh
             (uint256_t (GetNumber message offset sizeof_uint256_t + 1))]
          (Failed StaleRound) s.
Proof.
  intros Hgate Hsize Hfresh. run_process.
  rewrite Hgate; cbn. rewrite Hsize; cbn. rewrite Hfresh. reflexivity.
Qed.

(** The processor as a decision list: each run ends at the first check
    that fails, with the events up to it, and the object is written only on
    the last line. *)
Lemma process_unfold (message : list Byte.byte) (offset : nat) (from : Peer)
    (s : DirectoryService) :
  let DSBlockNum := GetNumber message offset sizeof_uint256_t in
  let consensusID := GetNumber message (offset + sizeof_uint256_t) sizeof_uint32_t in
  let shardId :=
    GetNumber message (offset + sizeof_uint256_t + sizeof_uint32_t) sizeof_uint32_t in
  let microBlock :=
    MicroBlock_from message
      (offset + sizeof_uint256_t + sizeof_uint32_t + sizeof_uint32_t) in
  ProcessMicroblockSubmission message offset from s
  = if negb (CheckState s PROCESS_MICROBLOCKSUBMISSION)
    then mkRun [CallCheckState] (Failed WrongPhase) s
    else if IsMessageSizeInappropriate (length message) offset
              (sizeof_uint256_t + sizeof_uint32_t + sizeof_uint32_t + TxBlock_GetMinSize)
    then mkRun [CallCheckState; CallIsMessageSizeInappropriate] (Failed TooShort) s
    else if negb (CheckWhetherDSBlockIsFresh s (uint256_t (DSBlockNum + 1)))
    then mkRun (take 4 (decode_events message offset)) (Failed StaleRound) s
    else if negb (consensusID =? m_consensusID s)
    then mkRun (take 5 (decode_events message offset)) (Failed RoundMismatch) s
    else
      match m_publicKeyToShardIdMap s !! GetMinerPubKey microBlock with
      | None => mkRun (decode_events message offset) (Failed UnknownProducer) s
      | Some second =>
          if negb (second =? shardId)
          then mkRun (decode_events message offset) (Failed ShardMismatch) s
          else
            match VerifyMicroblockCoSignature microBlock shardId s with
            | mkRun t (Done _) s' =>
                mkRun (decode_events message offset ++ t
                       ++ commit_events (insert_microBlock s' microBlock))
                      (Done tt)
                      (commit_final (insert_microBlock s' microBlock))
            | mkRun t (Failed _) s' =>
                mkRun (decode_events message offset ++ t) (Failed CosignatureInvalid) s'
            | mkRun t (Threw x) s' =>
                mkRun (decode_events message offset ++ t) (Threw x) s'
            end
      end.
Proof.
  intros DSBlockNum consensusID shardId microBlock.
  run_process.
  destruct (CheckState s PROCESS_MICROBLOCKSUBMISSION); cbn; [|reflexivity].
  destruct (IsMessageSizeInappropriate _ _ _); cbn; [reflexivity|].
  fold DSBlockNum.
  destruct (CheckWhetherDSBlockIsFresh s _); cbn; [|reflexivity].
  fold consensusID.
  destruct (consensusID =? m_consensusID s); cbn; [|reflexivity].
  fold shardId microBlock.
  destruct (m_publicKeyToShardIdMap s !! _) as [second|]; cbn; [|reflexivity].
  destruct (second =? shardId); cbn; [|reflexivity].
  destruct (VerifyMicroblockCoSignature microBlock shardId s) as [t [[]|e|x] s'];
    cbn; try reflexivity.
  unfold commit_events, commit_final.
  destruct (Nat.eqb _ _); cbn; fold DSBlockNum;
    rewrite <- ?app_assoc; reflexivity.
Qed.

(** *** Claims about the verifier *)

(** C10: the loop of lines 52-60 looks the bitmap up at every roster
    position. When the bitmap is at least as long as the roster every lookup
    is in bounds and the loop returns the selected keys and their number;
    when the bitmap is shorter the lookup at the position equal to the
    bitmap's length is reached and throws, and the verifier is left by that
    exception instead of returning [false]. *)
Theorem bitmap_lookups_follow_the_roster
    (bitmap : list bool) (shard : list (PubKey * Peer)) (s : DirectoryService) :
  let loop := VerifyMicroblockCoSignature_loop bitmap shard 0 0 [] s in
  ((length shard <= length bitmap)%nat ->
     trace loop = map CallBitmapAt (seq 0 (length shard))
     /\ (forall i, In (CallBitmapAt i) (trace loop) -> is_Some (bitmap !! i))
     /\ outcome loop
        = Done (signers bitmap shard 0, length (signers bitmap shard 0)))
  /\ ((length bitmap < length shard)%nat ->
     trace loop
     = map CallBitmapAt (seq 0 (length bitmap)) ++ [CallBitmapAt (length bitmap)]
     /\ bitmap !! length bitmap = None
     /\ outcome loop = Threw out_of_range
     /\ forall microBlock shardId,
          GetHeaderSigBitmap microBlock = bitmap ->
          m_shards s !! Z.to_nat shardId = Some shard ->
          returned (outcome (VerifyMicroblockCoSignature microBlock shardId s)) = None).
Proof.
  intros loop. split.
  - intros Hlen. subst loop.
    rewrite (loop_in_bounds bitmap shard 0 0 [] s) by (cbn; lia). cbn.
    repeat split.
    intros i Hin. apply in_map_iff in Hin as [j [Hj Hin]].
    injection Hj as ->. apply in_seq in Hin.
    apply lookup_lt_is_Some_2. lia.
  - intros Hlen. subst loop.
    rewrite (loop_out_of_bounds bitmap shard 0 0 [] s) by lia.
    rewrite Nat.sub_0_r, seq_S, map_app. cbn.
    repeat split.
    + apply lookup_ge_None. lia.
    + intros microBlock shardId Hbitmap Hshard.
      rewrite (verify_out_of_bounds microBlock shardId shard s Hshard)
        by (rewrite Hbitmap; exact Hlen).
      reflexivity.
Qed.

(** C9: the verifier's result is a function of the roster, the bitmap, the
    serialized message and the aggregate signature: two calls that agree on
    these four return the same outcome, whatever else the two objects and
    the two microblocks hold, and neither call changes its object. *)
Theorem verification_depends_only_on_its_inputs
    (microBlock1 microBlock2 : MicroBlock) (shardId1 shardId2 : Z)
    (s1 s2 : DirectoryService) :
  m_shards s1 !! Z.to_nat shardId1 = m_shards s2 !! Z.to_nat shardId2 ->
  GetHeaderSigBitmap microBlock1 = GetHeaderSigBitmap microBlock2 ->
  Serialize microBlock1 = Serialize microBlock2 ->
  GetHeaderSig microBlock1 = GetHeaderSig microBlock2 ->
  outcome (VerifyMicroblockCoSignature microBlock1 shardId1 s1)
  = outcome (VerifyMicroblockCoSignature microBlock2 shardId2 s2)
  /\ final (VerifyMicroblockCoSignature microBlock1 shardId1 s1) = s1
  /\ final (VerifyMicroblockCoSignature microBlock2 shardId2 s2) = s2.
Proof.
  intros Hroster Hbitmap Hmessage Hsig.
  split; [|split; apply verify_final].
  destruct (m_shards s2 !! Z.to_nat shardId2) as [shard|] eqn:Hshard2.
  - destruct (le_lt_dec (length shard) (length (GetHeaderSigBitmap microBlock2)))
      as [Hle|Hlt].
    + rewrite (verify_in_bounds microBlock2 shardId2 shard s2 Hshard2 Hle).
      rewrite (verify_in_bounds microBlock1 shardId1 shard s1 Hroster)
        by (rewrite Hbitmap; exact Hle).
      cbv zeta. rewrite Hbitmap, Hmessage, Hsig.
      destruct (_ =? _)%nat; [destruct (AggregatePubKeys _)|]; reflexivity.
    + rewrite (verify_out_of_bounds microBlock2 shardId2 shard s2 Hshard2 Hlt).
      rewrite (verify_out_of_bounds microBlock1 shardId1 shard s1 Hroster)
        by (rewrite Hbitmap; exact Hlt).
      reflexivity.
  - rewrite (verify_no_shard microBlock1 shardId1 s1 Hroster).
    rewrite (verify_no_shard microBlock2 shardId2 s2 Hshard2).
    reflexivity.
Qed.

Lemma NumForConsensus_pos (n : nat) : (1 <= NumForConsensus n)%nat.
Proof. unfold NumForConsensus. lia. Qed.

Lemma not_in_lookups (ev : Event) (n : nat) :
  (forall i, ev <> CallBitmapAt i) -> ~ In ev (map CallBitmapAt (seq 0 n)).
Proof.
  intros Hev Hin. apply in_map_iff in Hin as [i [Hi _]]. exact (Hev i (eq_sym Hi)).
Qed.

(** C2, as the code has it: the verifier fails with InsufficientSigners
    exactly when the number of selected signers differs from
    floor(2m/3) + 1, m the length of the bitmap (the roster size when the
    bitmap is as long as the roster). Exactly that many signers go on to
    key aggregation and the signature check, and are accepted when the
    aggregate signature verifies; one signer fewer is rejected whatever the
    signature; more signers than that are rejected too, before any key is
    aggregated. *)
Theorem signer_count_must_equal_threshold
    (microBlock : MicroBlock) (shardId : Z) (shard : list (PubKey * Peer))
    (s : DirectoryService) :
  m_shards s !! Z.to_nat shardId = Some shard ->
  (length shard <= length (GetHeaderSigBitmap microBlock))%nat ->
  let bitmap := GetHeaderSigBitmap microBlock in
  let keys := signers bitmap shard 0 in
  let threshold := NumForConsensus (length bitmap) in
  let r := VerifyMicroblockCoSignature microBlock shardId s in
  threshold = (2 * length bitmap / 3 + 1)%nat
  /\ (length shard = length bitmap -> length keys = count_true bitmap)
  /\ (outcome r = Failed InsufficientSigners <-> length keys <> threshold)
  /\ (length keys = threshold ->
        In (CallAggregatePubKeys (length keys)) (trace r)
        /\ forall aggregatedKey,
             AggregatePubKeys keys = Some aggregatedKey ->
             In CallSchnorrVerify (trace r)
             /\ (Schnorr_Verify (Serialize microBlock) (GetHeaderSig microBlock)
                   aggregatedKey = true ->
                 outcome r = Done tt))
  /\ (length keys = (threshold - 1)%nat -> outcome r = Failed InsufficientSigners)
  /\ ((threshold < length keys)%nat ->
        outcome r = Failed InsufficientSigners
        /\ ~ In (CallAggregatePubKeys (length keys)) (trace r)
        /\ ~ In CallSchnorrVerify (trace r)).
Proof.
  intros Hshard Hlen bitmap keys threshold r.
  pose proof (NumForConsensus_pos (length bitmap)) as Hpos. fold threshold in Hpos.
  assert (Hrun := verify_in_bounds microBlock shardId shard s Hshard Hlen).
  cbv zeta in Hrun. fold bitmap keys threshold r in Hrun.
  assert (Hfew : length keys <> threshold ->
                 outcome r = Failed InsufficientSigners
                 /\ ~ In (CallAggregatePubKeys (length keys)) (trace r)
                 /\ ~ In CallSchnorrVerify (trace r)).
  { intros Hne. apply Nat.eqb_neq in Hne. rewrite Hne in Hrun. rewrite Hrun. cbn.
    split; [reflexivity|].
    split; (intros [Hin|[Hin|Hin]]; [discriminate..|]);
      apply in_app_iff in Hin as [Hin|[Hin|[]]]; try discriminate;
      revert Hin; apply not_in_lookups; discriminate. }
  split; [reflexivity|].
  split.
  { intros Hsame. subst keys.
    exact (signers_count shard bitmap [] Hsame). }
  split.
  { split.
    - intros Hout Heq. apply Nat.eqb_eq in Heq. rewrite Heq in Hrun.
      rewrite Hrun in Hout.
      destruct (AggregatePubKeys keys); cbn in Hout;
        [destruct (Schnorr_Verify _ _ _)|]; discriminate.
    - intros Hne. apply (Hfew Hne). }
  split.
  { intros Heq. apply Nat.eqb_eq in Heq. rewrite Heq in Hrun. rewrite Hrun.
    split.
    - destruct (AggregatePubKeys keys); cbn;
        do 2 right; apply in_app_iff; right; left; reflexivity.
    - intros aggregatedKey Hagg. rewrite Hagg. cbn. split.
      + do 2 right. apply in_app_iff. right. right. left. reflexivity.
      + intros Hvalid. rewrite Hvalid. reflexivity. }
  split.
  { intros Hless. apply Hfew. lia. }
  intros Hmore. apply Hfew. lia.
Qed.

(** C4, as the code has it: the verifier does not compare the length of
    the bitmap with the size of the roster. A bitmap shorter than the
    roster ends the call with the exception of the bounds-checked lookup at
    the first position past the bitmap, inside signer selection and before
    any key is aggregated or any signature checked. A bitmap longer than
    the roster is not refused for its length: the roster's positions select
    the signers, the threshold is taken from the bitmap's length, and the
    call succeeds when that many signers are selected and the aggregate
    signature verifies. *)
Theorem bitmap_length_is_not_compared
    (microBlock : MicroBlock) (shardId : Z) (shard : list (PubKey * Peer))
    (s : DirectoryService) :
  m_shards s !! Z.to_nat shardId = Some shard ->
  let bitmap := GetHeaderSigBitmap microBlock in
  let keys := signers bitmap shard 0 in
  let r := VerifyMicroblockCoSignature microBlock shardId s in
  ((length bitmap < length shard)%nat ->
     r = mkRun ([CallVerifyMicroblockCoSignature; CallShardsAt shardId]
                ++ map CallBitmapAt (seq 0 (length bitmap))
                ++ [CallBitmapAt (length bitmap)])
               (Threw out_of_range) s)
  /\ ((length shard < length bitmap)%nat ->
     (exists rest,
        trace r = [CallVerifyMicroblockCoSignature; CallShardsAt shardId]
                  ++ map CallBitmapAt (seq 0 (length shard))
                  ++ CallNumForConsensus (length bitmap) :: rest)
     /\ (outcome r = Failed InsufficientSigners
         <-> length keys <> NumForConsensus (length bitmap))
     /\ (length keys = NumForConsensus (length bitmap) ->
         forall aggregatedKey,
           AggregatePubKeys keys = Some aggregatedKey ->
           Schnorr_Verify (Serialize microBlock) (GetHeaderSig microBlock)
             aggregatedKey = true ->
           outcome r = Done tt)).
Proof.
  intros Hshard bitmap keys r. split.
  - intros Hlt. subst r.
    rewrite (verify_out_of_bounds microBlock shardId shard s Hshard Hlt).
    fold bitmap. rewrite seq_S, map_app. reflexivity.
  - intros Hlt.
    assert (Hle : (length shard <= length bitmap)%nat) by lia.
    assert (Hrun := verify_in_bounds microBlock shardId shard s Hshard Hle).
    cbv zeta in Hrun. fold bitmap keys r in Hrun.
    destruct (length keys =? NumForConsensus (length bitmap))%nat eqn:Hcount.
    + apply Nat.eqb_eq in Hcount.
      destruct (AggregatePubKeys keys) as [aggregatedKey|] eqn:Hagg;
        rewrite Hrun; cbn; rewrite <- app_assoc; cbn; (split; [eexists; reflexivity|]);
        (split; [split; [|intros Hne; contradiction]|]).
      * intros Hout. destruct (Schnorr_Verify _ _ _); discriminate.
      * intros _ k [= <-] Hvalid. rewrite Hvalid. reflexivity.
      * discriminate.
      * discriminate.
    + apply Nat.eqb_neq in Hcount. rewrite Hrun. cbn.
      split; [exists []; reflexivity|].
      split; [split; [intros _; exact Hcount|reflexivity]|].
      intros Heq. contradiction.
Qed.

(** *** The set of microblocks *)

(** An insertion removes nothing. *)
Lemma set_insert_keeps (x y : MicroBlock) (l : list MicroBlock) :
  In y l -> In y (set_insert x l).
Proof.
  induction l as [|z l IH]; cbn; [intros []|].
  intros Hin.
  destruct (MicroBlock_lt x z); [right; exact Hin|].
  destruct (MicroBlock_lt z x); [|exact Hin].
  destruct Hin as [->|Hin]; [left; reflexivity|right; exact (IH Hin)].
Qed.

(** An insertion adds the new element or nothing. *)
Lemma set_insert_adds (x y : MicroBlock) (l : list MicroBlock) :
  In y (set_insert x l) -> y = x \/ In y l.
Proof.
  induction l as [|z l IH]; cbn.
  - intros [->|[]]. left; reflexivity.
  - destruct (MicroBlock_lt x z); [intros [->|Hin]; auto|].
    destruct (MicroBlock_lt z x); [|auto].
    intros [->|Hin]; [auto|]. destruct (IH Hin); auto.
Qed.

Lemma set_insert_length (x : MicroBlock) (l : list MicroBlock) :
  (length l <= length (set_insert x l) <= S (length l))%nat.
Proof.
  induction l as [|z l IH]; cbn; [lia|].
  destruct (MicroBlock_lt x z); cbn; [lia|].
  destruct (MicroBlock_lt z x); cbn; lia.
Qed.

(** A summary with no equivalent in the set makes the set one larger. *)
Lemma set_insert_new (x : MicroBlock) (l : list MicroBlock) :
  (forall y, In y l -> equivalent x y = false) ->
  length (set_insert x l) = S (length l).
Proof.
  induction l as [|z l IH]; cbn; [reflexivity|].
  intros Hnew.
  pose proof (Hnew z (or_introl eq_refl)) as Hz. unfold equivalent in Hz.
  destruct (MicroBlock_lt x z); cbn; [reflexivity|].
  destruct (MicroBlock_lt z x); cbn; [|discriminate].
  rewrite IH; [reflexivity|]. intros y Hy. apply Hnew. right; exact Hy.
Qed.

(** Inserting the same summary again changes nothing. *)
Lemma set_insert_twice (x : MicroBlock) (l : list MicroBlock) :
  MicroBlock_lt x x = false ->
  set_insert x (set_insert x l) = set_insert x l.
Proof.
  intros Hirr.
  induction l as [|z l IH]; cbn.
  - rewrite Hirr. reflexivity.
  - destruct (MicroBlock_lt x z) eqn:Hxz; cbn.
    + rewrite Hirr. reflexivity.
    + destruct (MicroBlock_lt z x) eqn:Hzx; cbn; rewrite Hxz, Hzx;
        [rewrite IH|]; reflexivity.
Qed.

Section Ordered.
Hypothesis order : StrictWeakOrder.

Lemma lt_asym (x y : MicroBlock) :
  MicroBlock_lt x y = true -> MicroBlock_lt y x = false.
Proof.
  intros Hxy. destruct (MicroBlock_lt y x) eqn:Hyx; [|reflexivity].
  rewrite <- (lt_irrefl order x). symmetry. exact (lt_trans order x y x Hxy Hyx).
Qed.

(** An element below one of two equivalent elements is below the other. *)
Lemma lt_equivalent (z y x : MicroBlock) :
  MicroBlock_lt z y = true -> equivalent x y = true -> MicroBlock_lt z x = true.
Proof.
  intros Hzy Hxy.
  destruct (MicroBlock_lt z x) eqn:Hzx; [reflexivity|].
  destruct (MicroBlock_lt x z) eqn:Hxz.
  - pose proof (lt_trans order x z y Hxz Hzy) as Hlt.
    unfold equivalent in Hxy. rewrite Hlt in Hxy. discriminate.
  - assert (Hzx' : equivalent z x = true) by (unfold equivalent; rewrite Hzx, Hxz; reflexivity).
    pose proof (equivalent_trans order z x y Hzx' Hxy) as Hzy'.
    unfold equivalent in Hzy'. rewrite Hzy in Hzy'. discriminate.
Qed.

(** A summary equivalent to one already in the set is dropped: the set
    stays as it is. *)
Lemma set_insert_equivalent (x y : MicroBlock) (l : list MicroBlock) :
  ordered l -> In y l -> equivalent x y = true -> set_insert x l = l.
Proof.
  intros Hord Hin Hxy.
  induction l as [|z l IH]; [destruct Hin|].
  destruct Hord as [Hz Hord]. cbn.
  destruct Hin as [->|Hin].
  - unfold equivalent in Hxy.
    destruct (MicroBlock_lt x y); [discriminate|].
    destruct (MicroBlock_lt y x); [discriminate|reflexivity].
  - rewrite List.Forall_forall in Hz.
    pose proof (lt_equivalent z y x (Hz y Hin) Hxy) as Hzx.
    rewrite (lt_asym z x Hzx), Hzx, (IH Hord Hin). reflexivity.
Qed.

(** The insertion keeps the set strictly increasing. *)
Lemma set_insert_ordered (x : MicroBlock) (l : list MicroBlock) :
  ordered l -> ordered (set_insert x l).
Proof.
  induction l as [|z l IH]; cbn; [intros _; split; [constructor|exact I]|].
  intros [Hz Hord].
  destruct (MicroBlock_lt x z) eqn:Hxz.
  - cbn. split; [|split; assumption].
    constructor; [exact Hxz|].
    rewrite List.Forall_forall in *. intros y Hy.
    exact (lt_trans order x z y Hxz (Hz y Hy)).
  - destruct (MicroBlock_lt z x) eqn:Hzx; [|split; assumption].
    cbn. split; [|exact (IH Hord)].
    rewrite List.Forall_forall in *. intros y Hy.
    destruct (set_insert_adds x y l Hy) as [->|Hin]; [exact Hzx|exact (Hz y Hin)].
Qed.

End Ordered.

(** *** Numbers read from the message *)

Lemma fold_bytes_bound (l : list Byte.byte) :
  forall acc, 0 <= acc ->
    0 <= fold_left (fun a b => a * 256 + Z.of_N (Byte.to_N b)) l acc
      < (acc + 1) * 256 ^ Z.of_nat (length l).
Proof.
  induction l as [|b l IH]; intros acc Hacc.
  - cbn. lia.
  - cbn [fold_left length].
    pose proof (Byte.to_N_bounded b) as Hb.
    specialize (IH (acc * 256 + Z.of_N (Byte.to_N b)) ltac:(lia)).
    rewrite Nat2Z.inj_succ, Z.pow_succ_r by lia.
    split; [lia|].
    eapply Z.lt_le_trans; [apply IH|].
    assert (0 < 256 ^ Z.of_nat (length l)) by (apply Z.pow_pos_nonneg; lia).
    nia.
Qed.

(** A number of [n] bytes is below 256^n. *)
Lemma GetNumber_bound (src : list Byte.byte) (offset n : nat) :
  0 <= GetNumber src offset n < 256 ^ Z.of_nat n.
Proof.
  unfold GetNumber.
  pose proof (fold_bytes_bound (take n (drop offset src)) 0 ltac:(lia)) as Hb.
  split; [lia|].
  eapply Z.lt_le_trans; [apply Hb|].
  rewrite Z.add_0_l, Z.mul_1_l.
  apply Z.pow_le_mono_r; [lia|].
  rewrite length_take. lia.
Qed.

(** *** Counting the completion calls *)

Lemma triggers_app (t1 t2 : list Event) :
  triggers (t1 ++ t2) = (triggers t1 + triggers t2)%nat.
Proof. unfold triggers. rewrite List.filter_app, length_app. reflexivity. Qed.

Lemma triggers_verifier (t : list Event) :
  forallb verifier_event t = true -> triggers t = 0%nat.
Proof.
  induction t as [|ev t IH]; [reflexivity|].
  cbn [forallb]. intros Hall. apply andb_prop in Hall as [Hev Hall].
  unfold triggers in *. destruct ev; try discriminate; cbn; exact (IH Hall).
Qed.

Lemma triggers_timestamps (l : list MicroBlock) :
  triggers (map (fun microBlock => LogTimestamp (GetTimestamp microBlock)) l) = 0%nat.
Proof. induction l as [|x l IH]; [reflexivity|exact IH]. Qed.

Lemma triggers_commit (s' : DirectoryService) :
  triggers (commit_events s')
  = if (length (m_microBlocks s') =? length (m_shards s'))%nat then 1%nat else 0%nat.
Proof.
  unfold commit_events. rewrite triggers_app.
  destruct (Nat.eqb _ _); [|reflexivity].
  rewrite triggers_app, triggers_timestamps. reflexivity.
Qed.

Ltac stopped := left; split; [reflexivity|split; [discriminate|intros _; reflexivity]].

(** One call: it calls the completion trigger at most once, and exactly
    when it is accepted and the set, after the insertion, is as large as
    [m_shards]. *)
Lemma process_triggers (message : list Byte.byte) (offset : nat) (from : Peer)
    (s : DirectoryService) :
  let microBlock :=
    MicroBlock_from message
      (offset + sizeof_uint256_t + sizeof_uint32_t + sizeof_uint32_t) in
  let s' := insert_microBlock s microBlock in
  let r := ProcessMicroblockSubmission message offset from s in
  (triggers (trace r) = 0%nat
   /\ (outcome r = Done tt ->
       final r = s' /\ length (m_microBlocks s') <> length (m_shards s'))
   /\ (outcome r <> Done tt -> final r = s))
  \/ (triggers (trace r) = 1%nat
      /\ outcome r = Done tt
      /\ final r = RunConsensusOnFinalBlock s'
      /\ length (m_microBlocks s') = length (m_shards s')).
Proof.
  intros microBlock s' r. subst r.
  rewrite process_unfold. cbv zeta. fold microBlock.
  destruct (CheckState s PROCESS_MICROBLOCKSUBMISSION); cbn [negb];
    [|stopped].
  destruct (IsMessageSizeInappropriate _ _ _);
    [stopped|].
  destruct (CheckWhetherDSBlockIsFresh _ _); cbn [negb];
    [|stopped].
  destruct (_ =? m_consensusID s); cbn [negb];
    [|stopped].
  destruct (m_publicKeyToShardIdMap s !! _) as [second|];
    [|stopped].
  destruct (second =? _); cbn [negb];
    [|stopped].
  match goal with |- context [VerifyMicroblockCoSignature ?mb ?sid s] =>
    pose proof (verify_final mb sid s) as Hfinal;
    pose proof (triggers_verifier _ (verify_trace mb sid s)) as Htrace;
    destruct (VerifyMicroblockCoSignature mb sid s) as [t [[]|e|x] sv]
  end; cbn [final] in Hfinal; cbn [trace] in Htrace; subst sv.
  - fold s'. cbn [trace outcome final].
    rewrite !triggers_app, Htrace, triggers_commit. unfold commit_final.
    destruct (Nat.eqb _ _) eqn:Hfull.
    + right. apply Nat.eqb_eq in Hfull.
      split; [reflexivity|]. split; [reflexivity|]. split; [reflexivity|exact Hfull].
    + left. apply Nat.eqb_neq in Hfull.
      split; [reflexivity|]. split; [intros _; split; [reflexivity|exact Hfull]|].
      intros Hne. contradiction.
  - left. cbn [trace outcome final]. rewrite triggers_app, Htrace.
    split; [reflexivity|split; [discriminate|intros _; reflexivity]].
  - left. cbn [trace outcome final]. rewrite triggers_app, Htrace.
    split; [reflexivity|split; [discriminate|intros _; reflexivity]].
Qed.

(** *** Claims about the processor *)

Lemma no_insert_in_verifier (t : list Event) :
  forallb verifier_event t = true -> ~ In CallInsert t.
Proof.
  intros Hall Hin. rewrite forallb_forall in Hall.
  specialize (Hall _ Hin). discriminate.
Qed.

Lemma no_insert_in_decode (message : list Byte.byte) (offset n : nat) :
  ~ In CallInsert (take n (decode_events message offset)).
Proof.
  intros Hin. apply list_elem_of_In, elem_of_take in Hin as [i [Hi _]].
  do 8 (destruct i as [|i]; [discriminate|]). discriminate.
Qed.

(** One call: either it stops before line 165, with the object untouched,
    or the verifier accepted and lines 165-188 ran. *)
Lemma process_insert_cases (message : list Byte.byte) (offset : nat) (from : Peer)
    (s : DirectoryService) :
  let microBlock :=
    MicroBlock_from message
      (offset + sizeof_uint256_t + sizeof_uint32_t + sizeof_uint32_t) in
  let shardId :=
    GetNumber message (offset + sizeof_uint256_t + sizeof_uint32_t) sizeof_uint32_t in
  let r := ProcessMicroblockSubmission message offset from s in
  (final r = s /\ ~ In CallInsert (trace r) /\ outcome r <> Done tt)
  \/ (outcome r = Done tt
      /\ outcome (VerifyMicroblockCoSignature microBlock shardId s) = Done tt
      /\ In CallInsert (trace r)).
Proof.
  intros microBlock shardId r. subst r.
  pose proof (no_insert_in_decode message offset) as Hdecode.
  assert (Hdecode' : ~ In CallInsert (decode_events message offset))
    by exact (Hdecode 8%nat).
  rewrite process_unfold. cbv zeta. fold microBlock shardId.
  destruct (CheckState s PROCESS_MICROBLOCKSUBMISSION); cbn [negb];
    [|left; split; [reflexivity|split; [intros [|[]]|]; discriminate]].
  destruct (IsMessageSizeInappropriate _ _ _);
    [left; split; [reflexivity|split; [intros [|[|[]]]|]; discriminate]|].
  destruct (CheckWhetherDSBlockIsFresh _ _); cbn [negb];
    [|left; split; [reflexivity|split; [apply Hdecode|discriminate]]].
  destruct (_ =? m_consensusID s); cbn [negb];
    [|left; split; [reflexivity|split; [apply Hdecode|discriminate]]].
  destruct (m_publicKeyToShardIdMap s !! _) as [second|];
    [|left; split; [reflexivity|split; [apply Hdecode'|discriminate]]].
  destruct (second =? _); cbn [negb];
    [|left; split; [reflexivity|split; [apply Hdecode'|discriminate]]].
  pose proof (verify_final microBlock shardId s) as Hfinal.
  pose proof (no_insert_in_verifier _ (verify_trace microBlock shardId s)) as Htrace.
  destruct (VerifyMicroblockCoSignature microBlock shardId s) as [t [[]|e|x] sv];
    cbn [final] in Hfinal; cbn [trace] in Htrace; subst sv;
    cbn [trace outcome final].
  - right. split; [reflexivity|]. split; [reflexivity|].
    apply in_app_iff. right. apply in_app_iff. right. left. reflexivity.
  - left. split; [reflexivity|]. split; [|discriminate].
    intros Hin. apply in_app_iff in Hin as [Hin|Hin]; [exact (Hdecode' Hin)|exact (Htrace Hin)].
  - left. split; [reflexivity|]. split; [|discriminate].
    intros Hin. apply in_app_iff in Hin as [Hin|Hin]; [exact (Hdecode' Hin)|exact (Htrace Hin)].
Qed.

(** C5: a call that does not return [true] leaves the object, and with it
    the set of microblocks, as it was: in a phase other than the submission
    phase the call fails with WrongPhase and changes nothing, every other
    failure and every exception ends the call before line 166, and the
    insertion happens only in a call that passed every check, the
    co-signature included. *)
Theorem failed_call_changes_nothing
    (message : list Byte.byte) (offset : nat) (from : Peer) (s : DirectoryService) :
  let r := ProcessMicroblockSubmission message offset from s in
  (CheckState s PROCESS_MICROBLOCKSUBMISSION = false ->
     outcome r = Failed WrongPhase /\ final r = s)
  /\ (forall e, outcome r = Failed e ->
        final r = s /\ m_microBlocks (final r) = m_microBlocks s
        /\ ~ In CallInsert (trace r))
  /\ (forall x, outcome r = Threw x ->
        final r = s /\ m_microBlocks (final r) = m_microBlocks s
        /\ ~ In CallInsert (trace r))
  /\ (In CallInsert (trace r) ->
        outcome r = Done tt
        /\ outcome (VerifyMicroblockCoSignature
                      (MicroBlock_from message
                         (offset + sizeof_uint256_t + sizeof_uint32_t + sizeof_uint32_t))
                      (GetNumber message
                         (offset + sizeof_uint256_t + sizeof_uint32_t) sizeof_uint32_t)
                      s) = Done tt).
Proof.
  intros r. split.
  { intros Hgate. subst r. rewrite (process_wrong_phase _ _ _ _ Hgate).
    split; reflexivity. }
  pose proof (process_insert_cases message offset from s) as Hcases.
  cbv zeta in Hcases. fold r in Hcases.
  destruct Hcases as [[Hfinal [Hnone Hout]]|[Hout [Hv Hin]]].
  - split; [|split].
    + intros e _. rewrite Hfinal. auto.
    + intros x _. rewrite Hfinal. auto.
    + intros Hin. contradiction.
  - split; [|split].
    + intros e He. rewrite Hout in He. discriminate.
    + intros x Hx. rewrite Hout in Hx. discriminate.
    + intros _. split; assumption.
Qed.

(** C6: a submission that reaches the registry lookup of line 144 fails
    with UnknownProducer when the producer's key is not in the registry
    and with ShardMismatch when the registry gives the key a shard other
    than the one decoded from the message; either way the call ends right
    after the lookup, the verifier is not called and the object is
    unchanged. *)
Theorem producer_must_belong_to_the_shard
    (message : list Byte.byte) (offset : nat) (from : Peer) (s : DirectoryService) :
  CheckState s PROCESS_MICROBLOCKSUBMISSION = true ->
  IsMessageSizeInappropriate (length message) offset
    (sizeof_uint256_t + sizeof_uint32_t + sizeof_uint32_t + TxBlock_GetMinSize) = false ->
  CheckWhetherDSBlockIsFresh s
    (uint256_t (GetNumber message offset sizeof_uint256_t + 1)) = true ->
  GetNumber message (offset + sizeof_uint256_t) sizeof_uint32_t = m_consensusID s ->
  let shardId :=
    GetNumber message (offset + sizeof_uint256_t + sizeof_uint32_t) sizeof_uint32_t in
  let microBlock :=
    MicroBlock_from message
      (offset + sizeof_uint256_t + sizeof_uint32_t + sizeof_uint32_t) in
  let r := ProcessMicroblockSubmission message offset from s in
  (m_publicKeyToShardIdMap s !! GetMinerPubKey microBlock = None ->
     r = mkRun (decode_events message offset) (Failed UnknownProducer) s)
  /\ (forall second,
        m_publicKeyToShardIdMap s !! GetMinerPubKey microBlock = Some second ->
        second <> shardId ->
        r = mkRun (decode_events message offset) (Failed ShardMismatch) s)
  /\ ~ In CallVerifyMicroblockCoSignature (decode_events message offset)
  /\ ~ In CallSchnorrVerify (decode_events message offset)
  /\ ~ In CallInsert (decode_events message offset).
Proof.
  intros Hgate Hsize Hfresh Hround shardId microBlock r.
  assert (Hrun := process_unfold message offset from s).
  cbv zeta in Hrun. fold shardId microBlock r in Hrun.
  rewrite Hgate, Hsize, Hfresh, Hround, Z.eqb_refl in Hrun. cbn [negb] in Hrun.
  split; [|split].
  - intros Hnone. rewrite Hnone in Hrun. exact Hrun.
  - intros second Hsome Hne. rewrite Hsome in Hrun.
    apply Z.eqb_neq in Hne. rewrite Hne in Hrun. exact Hrun.
  - repeat split; intros Hin; cbn in Hin;
      repeat (destruct Hin as [Hin|Hin]; [discriminate|]); exact Hin.
Qed.

(** C7, as the code has it: a message with fewer bytes past [offset] than
    the 32-byte block number, the two 4-byte fields and
    [TxBlock::GetMinSize()] is rejected without any field being read; the
    rejection is TooShort when the call is made in the submission phase,
    and WrongPhase, from the gate of line 96, in any other phase. *)
Theorem short_message_is_rejected_unread
    (message : list Byte.byte) (offset : nat) (from : Peer) (s : DirectoryService) :
  (length message - offset
   < sizeof_uint256_t + sizeof_uint32_t + sizeof_uint32_t + TxBlock_GetMinSize)%nat ->
  let r := ProcessMicroblockSubmission message offset from s in
  (CheckState s PROCESS_MICROBLOCKSUBMISSION = true ->
     r = mkRun [CallCheckState; CallIsMessageSizeInappropriate] (Failed TooShort) s)
  /\ (CheckState s PROCESS_MICROBLOCKSUBMISSION = false ->
     r = mkRun [CallCheckState] (Failed WrongPhase) s)
  /\ (forall o n, ~ In (CallGetNumber o n) (trace r))
  /\ (forall o, ~ In (CallMicroBlock o) (trace r))
  /\ final r = s.
Proof.
  intros Hshort r.
  assert (Hsize : IsMessageSizeInappropriate (length message) offset
            (sizeof_uint256_t + sizeof_uint32_t + sizeof_uint32_t + TxBlock_GetMinSize)
          = true).
  { unfold IsMessageSizeInappropriate. apply Nat.ltb_lt. exact Hshort. }
  split; [intros Hgate; exact (process_too_short _ _ _ _ Hgate Hsize)|].
  split; [intros Hgate; exact (process_wrong_phase _ _ _ _ Hgate)|].
  subst r.
  destruct (CheckState s PROCESS_MICROBLOCKSUBMISSION) eqn:Hgate.
  - rewrite (process_too_short _ _ _ _ Hgate Hsize). cbn.
    repeat split; intros; intros [|[|[]]]; discriminate.
  - rewrite (process_wrong_phase _ _ _ _ Hgate). cbn.
    repeat split; intros; intros [|[]]; discriminate.
Qed.

(** C8: for a message that passed the phase gate and the size check, the
    32-byte number at [offset] is read, one is added to it in 256-bit
    unsigned arithmetic, and the sum is given to the freshness check; the
    call fails with StaleRound exactly when that check refuses the sum, and
    then no other field has been read. The sum is the number plus one
    unless all 32 bytes are 0xff. *)
Theorem block_number_plus_one_must_be_fresh
    (message : list Byte.byte) (offset : nat) (from : Peer) (s : DirectoryService) :
  CheckState s PROCESS_MICROBLOCKSUBMISSION = true ->
  IsMessageSizeInappropriate (length message) offset
    (sizeof_uint256_t + sizeof_uint32_t + sizeof_uint32_t + TxBlock_GetMinSize) = false ->
  let DSBlockNum := GetNumber message offset sizeof_uint256_t in
  let r := ProcessMicroblockSubmission message offset from s in
  (outcome r = Failed StaleRound
   <-> CheckWhetherDSBlockIsFresh s (uint256_t (DSBlockNum + 1)) = false)
  /\ (CheckWhetherDSBlockIsFresh s (uint256_t (DSBlockNum + 1)) = false ->
      r = mkRun [CallCheckState; CallIsMessageSizeInappropriate;
                 CallGetNumber offset sizeof_uint256_t;
                 CallCheckWhetherDSBlockIsFresh (uint256_t (DSBlockNum + 1))]
                (Failed StaleRound) s)
  /\ 0 <= DSBlockNum < 2 ^ 256
  /\ (DSBlockNum <> 2 ^ 256 - 1 -> uint256_t (DSBlockNum + 1) = DSBlockNum + 1).
Proof.
  intros Hgate Hsize DSBlockNum r.
  assert (Hbound : 0 <= DSBlockNum < 2 ^ 256).
  { pose proof (GetNumber_bound message offset sizeof_uint256_t) as Hb.
    change (256 ^ Z.of_nat sizeof_uint256_t) with (2 ^ 256) in Hb. exact Hb. }
  split; [|split; [|split]].
  - split.
    + intros Hout.
      destruct (CheckWhetherDSBlockIsFresh s (uint256_t (DSBlockNum + 1))) eqn:Hfresh;
        [|reflexivity].
      exfalso. subst r.
      rewrite process_unfold in Hout. cbv zeta in Hout. fold DSBlockNum in Hout.
      rewrite Hgate, Hsize, Hfresh in Hout. cbn [negb] in Hout.
      destruct (_ =? m_consensusID s); cbn [negb] in Hout; [|discriminate].
      destruct (m_publicKeyToShardIdMap s !! _) as [second|]; [|discriminate].
      destruct (second =? _); cbn [negb] in Hout; [|discriminate].
      destruct (VerifyMicroblockCoSignature _ _ s) as [t [[]|e|x] sv]; discriminate.
    + intros Hfresh. subst r.
      rewrite (process_stale _ _ _ _ Hgate Hsize Hfresh). reflexivity.
  - intros Hfresh. exact (process_stale _ _ _ _ Hgate Hsize Hfresh).
  - exact Hbound.
  - intros Hmax. unfold uint256_t. apply Z.mod_small. lia.
Qed.

(** C3, as the code has it: the accepted summaries are kept in a set
    ordered by the summaries' own comparison, not by shard id, and the call
    has no duplicate outcome. An accepted call returns [true] and inserts
    its summary; the insertion removes nothing and keeps the set ordered; a
    summary equivalent to one already in the set is dropped, so the set and
    its size stay as they are and the earlier summary stays in place;
    inserting the same summary twice therefore makes the set one larger,
    not two; and a summary with no equivalent in the set makes it one
    larger whichever shard it comes from. *)
Theorem batch_is_a_set_of_summaries
    (order : StrictWeakOrder)
    (message : list Byte.byte) (offset : nat) (from : Peer) (s : DirectoryService) :
  let microBlock :=
    MicroBlock_from message
      (offset + sizeof_uint256_t + sizeof_uint32_t + sizeof_uint32_t) in
  let r := ProcessMicroblockSubmission message offset from s in
  let batch := m_microBlocks s in
  let batch' := set_insert microBlock batch in
  (outcome r = Done tt ->
     returned (outcome r) = Some true
     /\ m_microBlocks (insert_microBlock s microBlock) = batch'
     /\ (final r = insert_microBlock s microBlock
         \/ final r = RunConsensusOnFinalBlock (insert_microBlock s microBlock)))
  /\ (forall y, In y batch -> In y batch')
  /\ (ordered batch -> ordered batch')
  /\ (ordered batch ->
      forall y, In y batch -> equivalent microBlock y = true -> batch' = batch)
  /\ set_insert microBlock batch' = batch'
  /\ (length batch <= length batch' <= S (length batch))%nat
  /\ ((forall y, In y batch -> equivalent microBlock y = false) ->
      length batch' = S (length batch)).
Proof.
  intros microBlock r batch batch'.
  split; [|split; [|split; [|split; [|split; [|split]]]]].
  - intros Hout. split; [rewrite Hout; reflexivity|]. split; [reflexivity|].
    pose proof (process_triggers message offset from s) as Hcases.
    cbv zeta in Hcases. fold microBlock r in Hcases.
    destruct Hcases as [[_ [Hdone _]]|[_ [_ [Hfinal _]]]].
    + left. exact (proj1 (Hdone Hout)).
    + right. exact Hfinal.
  - intros y. apply set_insert_keeps.
  - apply set_insert_ordered. exact order.
  - intros Hord y. apply set_insert_equivalent; assumption.
  - apply set_insert_twice. apply (lt_irrefl order).
  - apply set_insert_length.
  - apply set_insert_new.
Qed.


(** *** Sequences of calls *)






End Properties.

(** ** Further properties of the two functions *)

Section Further.
Context `{Coordinator}.

(** *** The verifier *)

(** X1: the verifier returns [true] exactly when the shard id is a
    position of [m_shards], the bitmap covers the roster, the number of
    selected members equals the threshold of the bitmap's length, their keys
    aggregate, and the signature verifies under the aggregate key. *)
Theorem verifier_accepts_exactly_a_valid_quorum
    (microBlock : MicroBlock) (shardId : Z) (s : DirectoryService) :
  let bitmap := GetHeaderSigBitmap microBlock in
  outcome (VerifyMicroblockCoSignature microBlock shardId s) = Done tt
  <-> exists shard aggregatedKey,
        m_shards s !! Z.to_nat shardId = Some shard
        /\ (length shard <= length bitmap)%nat
        /\ length (signers bitmap shard 0) = NumForConsensus (length bitmap)
        /\ AggregatePubKeys (signers bitmap shard 0) = Some aggregatedKey
        /\ Schnorr_Verify (Serialize microBlock) (GetHeaderSig microBlock)
             aggregatedKey = true.
Proof.
  intros bitmap. split.
  - intros Hout.
    destruct (m_shards s !! Z.to_nat shardId) as [shard|] eqn:Hshard;
      [|rewrite (verify_no_shard _ _ _ Hshard) in Hout; discriminate].
    destruct (le_lt_dec (length shard) (length bitmap)) as [Hle|Hlt];
      [|rewrite (verify_out_of_bounds _ _ _ _ Hshard Hlt) in Hout; discriminate].
    rewrite (verify_in_bounds _ _ _ _ Hshard Hle) in Hout. cbv zeta in Hout.
    fold bitmap in Hout.
    destruct (Nat.eqb _ _) eqn:Hcount; [|discriminate].
    destruct (AggregatePubKeys _) as [aggregatedKey|] eqn:Hagg; [|discriminate].
    cbn in Hout.
    destruct (Schnorr_Verify _ _ _) eqn:Hvalid; [|discriminate].
    exists shard, aggregatedKey. apply Nat.eqb_eq in Hcount. auto.
  - intros [shard [aggregatedKey [Hshard [Hle [Hcount [Hagg Hvalid]]]]]].
    rewrite (verify_in_bounds _ _ _ _ Hshard Hle). cbv zeta. fold bitmap.
    apply Nat.eqb_eq in Hcount. rewrite Hcount, Hagg. cbn. rewrite Hvalid.
    reflexivity.
Qed.

Lemma signers_as_sublist (bitmap : list bool) (shard : list (PubKey * Peer)) :
  forall index, sublist (signers bitmap shard index) (map fst shard).
Proof.
  induction shard as [|kv rest IH]; intros index; cbn; [constructor|].
  destruct (bitmap !! index) as [[|]|].
  - apply sublist_skip, IH.
  - apply sublist_cons, IH.
  - apply sublist_cons, IH.
Qed.

(** From a position past the bitmap no member is selected. *)
Lemma signers_past_end (bitmap : list bool) (shard : list (PubKey * Peer)) :
  forall index, (length bitmap <= index)%nat -> signers bitmap shard index = [].
Proof.
  induction shard as [|kv rest IH]; intros index Hindex; [reflexivity|].
  cbn. rewrite (proj2 (lookup_ge_None bitmap index) Hindex). apply IH. lia.
Qed.

Lemma signers_combine (shard : list (PubKey * Peer)) :
  forall (bitmap prefix : list bool),
    signers (prefix ++ bitmap) shard (length prefix)
    = map (fun p => fst (snd p)) (List.filter fst (combine bitmap shard)).
Proof.
  induction shard as [|kv rest IH]; intros bitmap prefix.
  - destruct bitmap; reflexivity.
  - destruct bitmap as [|b bitmap].
    + rewrite app_nil_r. apply signers_past_end. lia.
    + cbn [signers]. rewrite lookup_app_r by lia. rewrite Nat.sub_diag.
      cbn [lookup list_lookup combine List.filter].
      specialize (IH bitmap (prefix ++ [b])).
      rewrite <- app_assoc, length_app, Nat.add_1_r in IH. cbn [app length] in IH.
      destruct b; cbn; rewrite IH; reflexivity.
Qed.

Lemma combine_take_roster (shard : list (PubKey * Peer)) :
  forall bitmap : list bool,
    combine (take (length shard) bitmap) shard = combine bitmap shard.
Proof.
  induction shard as [|kv rest IH]; intros [|b bitmap]; cbn; try reflexivity.
  rewrite IH. reflexivity.
Qed.

(** X2: the loop of lines 52-60 selects exactly the roster members that
    stand next to a [true] bit, in roster order: the selected keys are a
    subsequence of the roster's keys, [count] ends as the number of selected
    keys, and bits at positions past the roster select nothing. *)
Theorem loop_selects_the_flagged_members
    (bitmap : list bool) (shard : list (PubKey * Peer)) (s : DirectoryService) :
  let keys := map (fun p => fst (snd p)) (List.filter fst (combine bitmap shard)) in
  signers bitmap shard 0 = keys
  /\ sublist keys (map fst shard)
  /\ ((length shard <= length bitmap)%nat ->
      outcome (VerifyMicroblockCoSignature_loop bitmap shard 0 0 [] s)
      = Done (keys, length keys))
  /\ (forall bitmap' : list bool,
        take (length shard) bitmap' = take (length shard) bitmap ->
        signers bitmap' shard 0 = signers bitmap shard 0).
Proof.
  intros keys.
  assert (Hkeys : forall b : list bool,
            signers b shard 0
            = map (fun p => fst (snd p)) (List.filter fst (combine b shard)))
    by (intros b; exact (signers_combine shard b [])).
  split; [exact (Hkeys bitmap)|]. split; [|split].
  - subst keys. rewrite <- Hkeys. apply signers_as_sublist.
  - intros Hlen. rewrite (loop_in_bounds bitmap shard 0 0 [] s) by (cbn; lia).
    cbn. rewrite Hkeys. reflexivity.
  - intros bitmap' Htake.
    rewrite !Hkeys, <- (combine_take_roster shard bitmap'), Htake,
      combine_take_roster. reflexivity.
Qed.

(** X3: keys are aggregated only for a quorum: whenever the verifier calls
    [AggregatePubKeys], the keys are the selected members of the shard's
    roster, and their number is the threshold, at least one and at most the
    roster size; whenever it calls the signature check, the aggregation
    returned a key. *)
Theorem keys_are_aggregated_only_for_a_quorum
    (microBlock : MicroBlock) (shardId : Z) (s : DirectoryService) :
  let bitmap := GetHeaderSigBitmap microBlock in
  let r := VerifyMicroblockCoSignature microBlock shardId s in
  (forall n, In (CallAggregatePubKeys n) (trace r) ->
     exists shard,
       m_shards s !! Z.to_nat shardId = Some shard
       /\ n = length (signers bitmap shard 0)
       /\ n = NumForConsensus (length bitmap)
       /\ (1 <= n <= length shard)%nat)
  /\ (In CallSchnorrVerify (trace r) ->
      exists shard aggregatedKey,
        m_shards s !! Z.to_nat shardId = Some shard
        /\ AggregatePubKeys (signers bitmap shard 0) = Some aggregatedKey).
Proof.
  intros bitmap r. subst r.
  destruct (m_shards s !! Z.to_nat shardId) as [shard|] eqn:Hshard.
  2:{ rewrite (verify_no_shard _ _ _ Hshard). cbn.
      split; [intros n|]; intros [Hin|[Hin|[]]]; discriminate. }
  destruct (le_lt_dec (length shard) (length bitmap)) as [Hle|Hlt].
  2:{ rewrite (verify_out_of_bounds _ _ _ _ Hshard Hlt). cbn [trace].
      split; [intros n|]; intros Hin;
        (apply in_app_iff in Hin as [[Hin|[Hin|[]]]|Hin]; [discriminate..|]);
        exfalso; refine (not_in_lookups _ _ _ Hin); discriminate. }
  rewrite (verify_in_bounds _ _ _ _ Hshard Hle). cbv zeta. fold bitmap.
  pose proof (signers_length_le bitmap shard 0) as Hmost.
  pose proof (NumForConsensus_pos (length bitmap)) as Hpos.
  assert (Hlookups : forall ev,
            (forall i, ev <> CallBitmapAt i) ->
            ev <> CallVerifyMicroblockCoSignature -> ev <> CallShardsAt shardId ->
            ev <> CallNumForConsensus (length bitmap) ->
            ~ In ev ([CallVerifyMicroblockCoSignature; CallShardsAt shardId]
                     ++ map CallBitmapAt (seq 0 (length shard))
                     ++ [CallNumForConsensus (length bitmap)])).
  { intros ev Hat Hv Hs Hn Hin. cbn in Hin.
    destruct Hin as [Hin|[Hin|Hin]]; [congruence..|].
    apply in_app_iff in Hin as [Hin|[Hin|[]]]; [|congruence].
    revert Hin. apply not_in_lookups. exact Hat. }
  destruct (Nat.eqb _ _) eqn:Hcount.
  - apply Nat.eqb_eq in Hcount.
    destruct (AggregatePubKeys _) as [aggregatedKey|] eqn:Hagg; cbn [trace]; split.
    + intros n Hin. apply in_app_iff in Hin as [Hin|Hin];
        [exfalso; revert Hin; apply Hlookups; discriminate|].
      destruct Hin as [Hin|[Hin|[]]]; [|discriminate].
      injection Hin as <-. exists shard. repeat split; lia.
    + intros _. exists shard, aggregatedKey. split; [reflexivity|exact Hagg].
    + intros n Hin. apply in_app_iff in Hin as [Hin|Hin];
        [exfalso; revert Hin; apply Hlookups; discriminate|].
      destruct Hin as [Hin|[]].
      injection Hin as <-. exists shard. repeat split; lia.
    + intros Hin. apply in_app_iff in Hin as [Hin|Hin];
        [exfalso; revert Hin; apply Hlookups; discriminate|].
      destruct Hin as [Hin|[]]. discriminate.
  - cbn [trace]. split; [intros n|]; intros Hin; exfalso; revert Hin;
      apply Hlookups; discriminate.
Qed.

(** X4: a shard whose roster is smaller than the threshold of the bitmap's
    length can never have a microblock verified: whatever the bits and the
    signature, the verifier fails with InsufficientSigners and aggregates
    no key. In particular a shard without members fails so for every
    bitmap, the empty one included, without a single bitmap lookup. *)
Theorem roster_below_threshold_is_refused
    (microBlock : MicroBlock) (shardId : Z) (shard : list (PubKey * Peer))
    (s : DirectoryService) :
  m_shards s !! Z.to_nat shardId = Some shard ->
  let bitmap := GetHeaderSigBitmap microBlock in
  let r := VerifyMicroblockCoSignature microBlock shardId s in
  ((length shard <= length bitmap)%nat ->
   (length shard < NumForConsensus (length bitmap))%nat ->
   r = mkRun ([CallVerifyMicroblockCoSignature; CallShardsAt shardId]
              ++ map CallBitmapAt (seq 0 (length shard))
              ++ [CallNumForConsensus (length bitmap)])
             (Failed InsufficientSigners) s)
  /\ (shard = [] ->
      r = mkRun [CallVerifyMicroblockCoSignature; CallShardsAt shardId;
                 CallNumForConsensus (length bitmap)]
                (Failed InsufficientSigners) s).
Proof.
  intros Hshard bitmap r.
  assert (Hsmall : (length shard <= length bitmap)%nat ->
                   (length shard < NumForConsensus (length bitmap))%nat ->
                   r = mkRun ([CallVerifyMicroblockCoSignature; CallShardsAt shardId]
                              ++ map CallBitmapAt (seq 0 (length shard))
                              ++ [CallNumForConsensus (length bitmap)])
                             (Failed InsufficientSigners) s).
  { intros Hle Hlt. subst r.
    rewrite (verify_in_bounds _ _ _ _ Hshard Hle). cbv zeta. fold bitmap.
    pose proof (signers_length_le bitmap shard 0) as Hmost.
    replace (Nat.eqb _ _) with false; [reflexivity|].
    symmetry. apply Nat.eqb_neq. lia. }
  split; [exact Hsmall|].
  intros Hempty. subst shard.
  pose proof (NumForConsensus_pos (length bitmap)) as Hpos.
  apply Hsmall; cbn; lia.
Qed.

(** *** The processor *)

(** X5: a call returns [true] exactly when it is made in the submission
    phase, the message is long enough, the block number plus one is fresh,
    the consensus id is the object's, the registry gives the producer's key
    the shard id of the message, and the verifier accepts; the object is
    then the one lines 165-188 leave. *)
Theorem submission_is_accepted_iff_every_check_passes
    (message : list Byte.byte) (offset : nat) (from : Peer) (s : DirectoryService) :
  let DSBlockNum := GetNumber message offset sizeof_uint256_t in
  let consensusID := GetNumber message (offset + sizeof_uint256_t) sizeof_uint32_t in
  let shardId :=
    GetNumber message (offset + sizeof_uint256_t + sizeof_uint32_t) sizeof_uint32_t in
  let microBlock :=
    MicroBlock_from message
      (offset + sizeof_uint256_t + sizeof_uint32_t + sizeof_uint32_t) in
  let r := ProcessMicroblockSubmission message offset from s in
  (outcome r = Done tt
   <-> CheckState s PROCESS_MICROBLOCKSUBMISSION = true
       /\ IsMessageSizeInappropriate (length message) offset
            (sizeof_uint256_t + sizeof_uint32_t + sizeof_uint32_t + TxBlock_GetMinSize)
          = false
       /\ CheckWhetherDSBlockIsFresh s (uint256_t (DSBlockNum + 1)) = true
       /\ consensusID = m_consensusID s
       /\ m_publicKeyToShardIdMap s !! GetMinerPubKey microBlock = Some shardId
       /\ outcome (VerifyMicroblockCoSignature microBlock shardId s) = Done tt)
  /\ (outcome r = Done tt -> final r = commit_final (insert_microBlock s microBlock)).
Proof.
  intros DSBlockNum consensusID shardId microBlock r.
  assert (Hrun := process_unfold message offset from s). cbv zeta in Hrun.
  fold DSBlockNum consensusID shardId microBlock r in Hrun.
  pose proof (verify_final microBlock shardId s) as Hfinal.
  split.
  - split.
    + intros Hout. rewrite Hrun in Hout.
      destruct (CheckState s PROCESS_MICROBLOCKSUBMISSION); [|discriminate].
      destruct (IsMessageSizeInappropriate _ _ _); [discriminate|].
      destruct (CheckWhetherDSBlockIsFresh _ _); [|discriminate].
      destruct (consensusID =? m_consensusID s) eqn:Hround; [|discriminate].
      destruct (m_publicKeyToShardIdMap s !! _) as [second|]; [|discriminate].
      destruct (second =? shardId) eqn:Hsecond; [|discriminate].
      apply Z.eqb_eq in Hround, Hsecond. subst second.
      destruct (VerifyMicroblockCoSignature microBlock shardId s) as [t [[]|e|x] sv];
        [|discriminate..].
      repeat split; assumption.
    + intros [Hgate [Hsize [Hfresh [Hround [Hfind Hv]]]]].
      rewrite Hrun, Hgate, Hsize, Hfresh, Hround, Z.eqb_refl, Hfind, Z.eqb_refl.
      cbn [negb].
      destruct (VerifyMicroblockCoSignature microBlock shardId s) as [t [[]|e|x] sv];
        [reflexivity|discriminate..].
  - intros Hout. rewrite Hrun in Hout |- *.
    destruct (CheckState s PROCESS_MICROBLOCKSUBMISSION); [|discriminate].
    destruct (IsMessageSizeInappropriate _ _ _); [discriminate|].
    destruct (CheckWhetherDSBlockIsFresh _ _); [|discriminate].
    destruct (consensusID =? m_consensusID s); [|discriminate].
    destruct (m_publicKeyToShardIdMap s !! _) as [second|]; [|discriminate].
    destruct (second =? shardId); [|discriminate].
    destruct (VerifyMicroblockCoSignature microBlock shardId s) as [t [[]|e|x] sv];
      [|discriminate..].
    cbn in Hfinal. subst sv. reflexivity.
Qed.

(** X6: a submission for another consensus round is refused with
    RoundMismatch once the block number was found fresh, exactly when the
    4-byte number after the block number differs from [m_consensusID]; the
    shard id and the microblock are then not read and the object is
    unchanged. *)
Theorem other_consensus_round_is_refused
    (message : list Byte.byte) (offset : nat) (from : Peer) (s : DirectoryService) :
  CheckState s PROCESS_MICROBLOCKSUBMISSION = true ->
  IsMessageSizeInappropriate (length message) offset
    (sizeof_uint256_t + sizeof_uint32_t + sizeof_uint32_t + TxBlock_GetMinSize) = false ->
  CheckWhetherDSBlockIsFresh s
    (uint256_t (GetNumber message offset sizeof_uint256_t + 1)) = true ->
  let consensusID := GetNumber message (offset + sizeof_uint256_t) sizeof_uint32_t in
  let r := ProcessMicroblockSubmission message offset from s in
  (outcome r = Failed RoundMismatch <-> consensusID <> m_consensusID s)
  /\ (consensusID <> m_consensusID s ->
      r = mkRun [CallCheckState; CallIsMessageSizeInappropriate;
                 CallGetNumber offset sizeof_uint256_t;
                 CallCheckWhetherDSBlockIsFresh
                   (uint256_t (GetNumber message offset sizeof_uint256_t + 1));
                 CallGetNumber (offset + sizeof_uint256_t) sizeof_uint32_t]
                (Failed RoundMismatch) s)
  /\ 0 <= consensusID < 2 ^ 32.
Proof.
  intros Hgate Hsize Hfresh consensusID r.
  assert (Hrun := process_unfold message offset from s). cbv zeta in Hrun.
  fold consensusID r in Hrun.
  rewrite Hgate, Hsize, Hfresh in Hrun. cbn [negb] in Hrun.
  split; [|split].
  - split.
    + intros Hout Heq. rewrite Hrun in Hout.
      apply Z.eqb_eq in Heq. rewrite Heq in Hout. cbn [negb] in Hout.
      destruct (m_publicKeyToShardIdMap s !! _) as [second|]; [|discriminate].
      destruct (second =? _); cbn [negb] in Hout; [|discriminate].
      destruct (VerifyMicroblockCoSignature _ _ s) as [t [[]|e|x] sv]; discriminate.
    + intros Hne. apply Z.eqb_neq in Hne. rewrite Hrun, Hne. reflexivity.
  - intros Hne. apply Z.eqb_neq in Hne. rewrite Hrun, Hne. reflexivity.
  - pose proof (GetNumber_bound message (offset + sizeof_uint256_t) sizeof_uint32_t) as Hb.
    change (256 ^ Z.of_nat sizeof_uint32_t) with (2 ^ 32) in Hb. exact Hb.
Qed.

(** The checks of lines 96-157, all passed. *)
Lemma process_after_checks
    (message : list Byte.byte) (offset : nat) (from : Peer) (s : DirectoryService) :
  let shardId :=
    GetNumber message (offset + sizeof_uint256_t + sizeof_uint32_t) sizeof_uint32_t in
  let microBlock :=
    MicroBlock_from message
      (offset + sizeof_uint256_t + sizeof_uint32_t + sizeof_uint32_t) in
  CheckState s PROCESS_MICROBLOCKSUBMISSION = true ->
  IsMessageSizeInappropriate (length message) offset
    (sizeof_uint256_t + sizeof_uint32_t + sizeof_uint32_t + TxBlock_GetMinSize) = false ->
  CheckWhetherDSBlockIsFresh s
    (uint256_t (GetNumber message offset sizeof_uint256_t + 1)) = true ->
  GetNumber message (offset + sizeof_uint256_t) sizeof_uint32_t = m_consensusID s ->
  m_publicKeyToShardIdMap s !! GetMinerPubKey microBlock = Some shardId ->
  ProcessMicroblockSubmission message offset from s
  = match VerifyMicroblockCoSignature microBlock shardId s with
    | mkRun t (Done _) s' =>
        mkRun (decode_events message offset ++ t
               ++ commit_events (insert_microBlock s' microBlock))
              (Done tt)
              (commit_final (insert_microBlock s' microBlock))
    | mkRun t (Failed _) s' =>
        mkRun (decode_events message offset ++ t) (Failed CosignatureInvalid) s'
    | mkRun t (Threw x) s' =>
        mkRun (decode_events message offset ++ t) (Threw x) s'
    end.
Proof.
  intros shardId microBlock Hgate Hsize Hfresh Hround Hfind.
  rewrite process_unfold. cbv zeta. fold shardId microBlock.
  rewrite Hgate, Hsize, Hfresh, Hround, Z.eqb_refl, Hfind, Z.eqb_refl. reflexivity.
Qed.

(** X7: once the checks of lines 96-157 have passed, what the verifier
    does decides the call. Each of its three ways of returning [false]
    makes the call fail with CosignatureInvalid, and an exception of the
    verifier leaves the call as the same exception; the events are those of
    the checks followed by the verifier's, and the object is unchanged. When
    the registry names a shard id that is no position of [m_shards], the
    call is left by out_of_range. *)
Theorem verifier_result_decides_the_call
    (message : list Byte.byte) (offset : nat) (from : Peer) (s : DirectoryService) :
  let shardId :=
    GetNumber message (offset + sizeof_uint256_t + sizeof_uint32_t) sizeof_uint32_t in
  let microBlock :=
    MicroBlock_from message
      (offset + sizeof_uint256_t + sizeof_uint32_t + sizeof_uint32_t) in
  let v := VerifyMicroblockCoSignature microBlock shardId s in
  let r := ProcessMicroblockSubmission message offset from s in
  CheckState s PROCESS_MICROBLOCKSUBMISSION = true ->
  IsMessageSizeInappropriate (length message) offset
    (sizeof_uint256_t + sizeof_uint32_t + sizeof_uint32_t + TxBlock_GetMinSize) = false ->
  CheckWhetherDSBlockIsFresh s
    (uint256_t (GetNumber message offset sizeof_uint256_t + 1)) = true ->
  GetNumber message (offset + sizeof_uint256_t) sizeof_uint32_t = m_consensusID s ->
  m_publicKeyToShardIdMap s !! GetMinerPubKey microBlock = Some shardId ->
  (forall e, outcome v = Failed e ->
     r = mkRun (decode_events message offset ++ trace v) (Failed CosignatureInvalid) s)
  /\ (forall x, outcome v = Threw x ->
     r = mkRun (decode_events message offset ++ trace v) (Threw x) s)
  /\ (outcome r = Failed CosignatureInvalid <-> exists e, outcome v = Failed e)
  /\ (m_shards s !! Z.to_nat shardId = None ->
      r = mkRun (decode_events message offset
                 ++ [CallVerifyMicroblockCoSignature; CallShardsAt shardId])
                (Threw out_of_range) s
      /\ returned (outcome r) = None).
Proof.
  intros shardId microBlock v r Hgate Hsize Hfresh Hround Hfind.
  assert (Hrun := process_after_checks message offset from s
                    Hgate Hsize Hfresh Hround Hfind).
  cbv zeta in Hrun. fold shardId microBlock v r in Hrun.
  pose proof (verify_final microBlock shardId s) as Hfinal. fold v in Hfinal.
  assert (Hnone : m_shards s !! Z.to_nat shardId = None ->
                  r = mkRun (decode_events message offset
                             ++ [CallVerifyMicroblockCoSignature; CallShardsAt shardId])
                            (Threw out_of_range) s).
  { intros Hshard. rewrite Hrun. subst v.
    rewrite (verify_no_shard _ _ _ Hshard). reflexivity. }
  split; [|split; [|split]].
  - intros e He. rewrite Hrun.
    destruct v as [t [[]|e'|x] sv]; cbn in *; try discriminate. subst sv. reflexivity.
  - intros x Hx. rewrite Hrun.
    destruct v as [t [[]|e'|x'] sv]; cbn in *; try discriminate.
    destruct x, x'. subst sv. reflexivity.
  - rewrite Hrun.
    destruct v as [t [[]|e'|x'] sv]; cbn; split;
      try discriminate; try (intros [e He]; discriminate); eauto.
  - intros Hshard. split; [exact (Hnone Hshard)|].
    rewrite (Hnone Hshard). reflexivity.
Qed.

(** X8: a call that does not start the consensus writes nothing but the
    set of microblocks: the phase, the consensus id, the shards, the
    registry and the mediator are those of the object before the call. *)
Theorem only_the_set_is_written
    (message : list Byte.byte) (offset : nat) (from : Peer) (s : DirectoryService) :
  let r := ProcessMicroblockSubmission message offset from s in
  triggers (trace r) = 0%nat ->
  m_state (final r) = m_state s
  /\ m_consensusID (final r) = m_consensusID s
  /\ m_shards (final r) = m_shards s
  /\ m_publicKeyToShardIdMap (final r) = m_publicKeyToShardIdMap s
  /\ m_mediator (final r) = m_mediator s
  /\ (forall y, In y (m_microBlocks s) -> In y (m_microBlocks (final r))).
Proof.
  intros r Hzero.
  pose proof (process_triggers message offset from s) as Hcases.
  cbv zeta in Hcases. fold r in Hcases.
  destruct Hcases as [[_ [Hdone Hfail]]|[Hone _]]; [|rewrite Hone in Hzero; discriminate].
  destruct (outcome r) as [[]|e|x] eqn:Hout.
  - destruct (Hdone eq_refl) as [-> _]. cbn.
    repeat split. intros y. apply set_insert_keeps.
  - rewrite Hfail by discriminate. repeat split. auto.
  - rewrite Hfail by discriminate. repeat split. auto.
Qed.

(** *** Replays and sequences of calls *)

(** The verifier reads nothing of the object but [m_shards]. *)
Lemma verify_reads_only_the_shards (microBlock : MicroBlock) (shardId : Z)
    (s1 s2 : DirectoryService) :
  m_shards s1 = m_shards s2 ->
  outcome (VerifyMicroblockCoSignature microBlock shardId s1)
  = outcome (VerifyMicroblockCoSignature microBlock shardId s2)
  /\ trace (VerifyMicroblockCoSignature microBlock shardId s1)
     = trace (VerifyMicroblockCoSignature microBlock shardId s2).
Proof.
  intros Hshards.
  destruct (m_shards s2 !! Z.to_nat shardId) as [shard|] eqn:Hshard2;
    pose proof Hshard2 as Hshard1; rewrite <- Hshards in Hshard1.
  - destruct (le_lt_dec (length shard) (length (GetHeaderSigBitmap microBlock)))
      as [Hle|Hlt].
    + rewrite (verify_in_bounds _ _ _ _ Hshard1 Hle),
        (verify_in_bounds _ _ _ _ Hshard2 Hle).
      cbv zeta.
      destruct (Nat.eqb _ _); [destruct (AggregatePubKeys _)|]; split; reflexivity.
    + rewrite (verify_out_of_bounds _ _ _ _ Hshard1 Hlt),
        (verify_out_of_bounds _ _ _ _ Hshard2 Hlt).
      split; reflexivity.
  - rewrite (verify_no_shard _ _ _ Hshard1), (verify_no_shard _ _ _ Hshard2).
    split; reflexivity.
Qed.

(** What an accepted call has passed. *)
Lemma process_done_inv
    (message : list Byte.byte) (offset : nat) (from : Peer) (s : DirectoryService) :
  let shardId :=
    GetNumber message (offset + sizeof_uint256_t + sizeof_uint32_t) sizeof_uint32_t in
  let microBlock :=
    MicroBlock_from message
      (offset + sizeof_uint256_t + sizeof_uint32_t + sizeof_uint32_t) in
  outcome (ProcessMicroblockSubmission message offset from s) = Done tt ->
  CheckState s PROCESS_MICROBLOCKSUBMISSION = true
  /\ IsMessageSizeInappropriate (length message) offset
       (sizeof_uint256_t + sizeof_uint32_t + sizeof_uint32_t + TxBlock_GetMinSize)
     = false
  /\ CheckWhetherDSBlockIsFresh s
       (uint256_t (GetNumber message offset sizeof_uint256_t + 1)) = true
  /\ GetNumber message (offset + sizeof_uint256_t) sizeof_uint32_t = m_consensusID s
  /\ m_publicKeyToShardIdMap s !! GetMinerPubKey microBlock = Some shardId
  /\ outcome (VerifyMicroblockCoSignature microBlock shardId s) = Done tt.
Proof.
  intros shardId microBlock Hout.
  rewrite process_unfold in Hout. cbv zeta in Hout. fold shardId microBlock in Hout.
  destruct (CheckState s PROCESS_MICROBLOCKSUBMISSION); [|discriminate].
  destruct (IsMessageSizeInappropriate _ _ _); [discriminate|].
  destruct (CheckWhetherDSBlockIsFresh _ _); [|discriminate].
  destruct (_ =? m_consensusID s) eqn:Hround; [|discriminate].
  destruct (m_publicKeyToShardIdMap s !! _) as [second|]; [|discriminate].
  destruct (second =? shardId) eqn:Hsecond; [|discriminate].
  apply Z.eqb_eq in Hround, Hsecond. subst second.
  destruct (VerifyMicroblockCoSignature microBlock shardId s) as [t [[]|e|x] sv];
    [|discriminate..].
  repeat split; assumption.
Qed.

(** X9: an accepted submission can be sent again. When the phase gate and
    the freshness check do not depend on the set of microblocks, and the
    first call did not start the consensus, the same message processed
    right after is accepted again, leaves the object exactly as the first
    call left it, and does not start the consensus either: the set keeps
    one copy of the summary. *)
Theorem accepted_submission_can_be_replayed
    (message : list Byte.byte) (offset : nat) (from : Peer) (s : DirectoryService) :
  let microBlock :=
    MicroBlock_from message
      (offset + sizeof_uint256_t + sizeof_uint32_t + sizeof_uint32_t) in
  let r1 := ProcessMicroblockSubmission message offset from s in
  let r2 := ProcessMicroblockSubmission message offset from (final r1) in
  MicroBlock_lt microBlock microBlock = false ->
  CheckState (insert_microBlock s microBlock) PROCESS_MICROBLOCKSUBMISSION
  = CheckState s PROCESS_MICROBLOCKSUBMISSION ->
  (forall n, CheckWhetherDSBlockIsFresh (insert_microBlock s microBlock) n
             = CheckWhetherDSBlockIsFresh s n) ->
  outcome r1 = Done tt ->
  triggers (trace r1) = 0%nat ->
  outcome r2 = Done tt
  /\ final r2 = final r1
  /\ m_microBlocks (final r2) = set_insert microBlock (m_microBlocks s)
  /\ triggers (trace r2) = 0%nat.
Proof.
  intros microBlock r1 r2 Hirr Hgate' Hfresh' Hout Hzero.
  destruct (process_done_inv message offset from s Hout)
    as [Hgate [Hsize [Hfresh [Hround [Hfind Hv]]]]].
  fold microBlock in Hfind, Hv.
  pose proof (process_triggers message offset from s) as Hcases.
  cbv zeta in Hcases. fold microBlock r1 in Hcases.
  destruct Hcases as [[_ [Hdone _]]|[Hone _]]; [|rewrite Hone in Hzero; discriminate].
  destruct (Hdone Hout) as [Hfinal Hsize'].
  set (s' := insert_microBlock s microBlock) in *.
  assert (Hsame : insert_microBlock s' microBlock = s').
  { unfold s', insert_microBlock. cbn. rewrite (set_insert_twice _ _ Hirr). reflexivity. }
  subst r2. rewrite Hfinal.
  set (shardId := GetNumber message
                    (offset + sizeof_uint256_t + sizeof_uint32_t) sizeof_uint32_t) in *.
  destruct (verify_reads_only_the_shards microBlock shardId s' s eq_refl) as [Hv' Ht'].
  pose proof (verify_final microBlock shardId s') as Hvfinal.
  assert (Hrun := process_after_checks message offset from s').
  cbv zeta in Hrun. fold microBlock shardId in Hrun.
  rewrite Hrun; [|rewrite Hgate'; exact Hgate|exact Hsize|rewrite Hfresh'; exact Hfresh
                 |exact Hround|exact Hfind].
  rewrite Hv in Hv'.
  pose proof (triggers_verifier _ (verify_trace microBlock shardId s')) as Htv.
  destruct (VerifyMicroblockCoSignature microBlock shardId s') as [t [[]|e|x] sv];
    cbn in Hv', Hvfinal; try discriminate. cbn [trace] in Htv. subst sv.
  cbn [outcome final trace]. rewrite Hsame.
  assert (Hopen : (length (m_microBlocks s') =? length (m_shards s'))%nat = false)
    by (apply Nat.eqb_neq; exact Hsize').
  unfold commit_final. rewrite !triggers_app, Htv, triggers_commit, Hopen.
  repeat split.
Qed.

Section Sequences.
Hypothesis trigger_keeps_the_set :
  forall s, m_microBlocks (RunConsensusOnFinalBlock s) = m_microBlocks s.

(** One call leaves the set as it was or with the call's microblock
    inserted. *)
Lemma process_set_cases
    (message : list Byte.byte) (offset : nat) (from : Peer) (s : DirectoryService) :
  let microBlock :=
    MicroBlock_from message
      (offset + sizeof_uint256_t + sizeof_uint32_t + sizeof_uint32_t) in
  let r := ProcessMicroblockSubmission message offset from s in
  m_microBlocks (final r) = m_microBlocks s
  \/ m_microBlocks (final r) = set_insert microBlock (m_microBlocks s).
Proof.
  intros microBlock r.
  pose proof (process_triggers message offset from s) as Hcases.
  cbv zeta in Hcases. fold microBlock r in Hcases.
  destruct Hcases as [[_ [Hdone Hfail]]|[_ [_ [Hfinal _]]]].
  - destruct (outcome r) as [[]|e|x] eqn:Hout.
    + right. destruct (Hdone eq_refl) as [-> _]. reflexivity.
    + left. rewrite Hfail by discriminate. reflexivity.
    + left. rewrite Hfail by discriminate. reflexivity.
  - right. rewrite Hfinal, trigger_keeps_the_set. reflexivity.
Qed.

Lemma ordered_pairs (order : StrictWeakOrder) (l : list MicroBlock) :
  ordered l ->
  forall j k x y, (j < k)%nat -> l !! j = Some x -> l !! k = Some y ->
    MicroBlock_lt x y = true.
Proof.
  induction l as [|z l IH]; intros Hord j k x y Hjk Hj Hk; [destruct j; discriminate|].
  destruct Hord as [Hz Hord].
  destruct k as [|k]; [lia|]. cbn [lookup list_lookup] in Hk.
  destruct j as [|j]; cbn [lookup list_lookup] in Hj.
  - injection Hj as <-. rewrite List.Forall_forall in Hz. apply Hz.
    apply list_elem_of_In. eapply list_elem_of_lookup_2. exact Hk.
  - apply (IH Hord j k); [lia|assumption..].
Qed.

(** X10: the set of microblocks keeps its shape over any sequence of
    calls. When [operator<] is a strict weak order, [RunConsensusOnFinalBlock]
    leaves the set alone and the set starts strictly increasing, then after
    every call the set is strictly increasing, so no two of its summaries
    are equivalent, and every summary it held at the start is still there. *)
Theorem set_stays_ordered_and_keeps_its_summaries
    (order : StrictWeakOrder)
    (calls : list (list Byte.byte * nat * Peer)) (s : DirectoryService) :
  ordered (m_microBlocks s) ->
  forall i r,
    ProcessAll calls s !! i = Some r ->
    let set := m_microBlocks (final r) in
    ordered set
    /\ (forall y, In y (m_microBlocks s) -> In y set)
    /\ (forall j k x y, (j < k)%nat -> set !! j = Some x -> set !! k = Some y ->
          MicroBlock_lt x y = true /\ equivalent x y = false).
Proof.
  revert s. induction calls as [|c calls IH]; intros s Hord i r Hi;
    cbn [ProcessAll] in Hi; [destruct i; discriminate|].
  pose proof (process_set_cases c.1.1 c.1.2 c.2 s) as Hset. cbv zeta in Hset.
  set (r0 := ProcessMicroblockSubmission c.1.1 c.1.2 c.2 s) in *.
  assert (Hord0 : ordered (m_microBlocks (final r0))).
  { destruct Hset as [->| ->]; [exact Hord|]. apply set_insert_ordered; assumption. }
  assert (Hkeep0 : forall y, In y (m_microBlocks s) -> In y (m_microBlocks (final r0))).
  { intros y Hy. destruct Hset as [->| ->]; [exact Hy|]. apply set_insert_keeps, Hy. }
  destruct i as [|i]; cbn [lookup list_lookup] in Hi.
  - injection Hi as <-. cbv zeta. split; [exact Hord0|]. split; [exact Hkeep0|].
    intros j k x y Hjk Hj Hk.
    pose proof (ordered_pairs order _ Hord0 j k x y Hjk Hj Hk) as Hlt.
    split; [exact Hlt|]. unfold equivalent. rewrite Hlt. reflexivity.
  - destruct (IH (final r0) Hord0 i r Hi) as [Hordr [Hkeepr Hpairs]].
    cbv zeta. split; [exact Hordr|]. split; [|exact Hpairs].
    intros y Hy. apply Hkeepr, Hkeep0, Hy.
Qed.

(** X11: the set never outgrows the shards. When
    [RunConsensusOnFinalBlock] closes the phase gate and leaves the set and
    the shards alone, and the set starts smaller than [m_shards], then after
    every call of any sequence the set holds at most as many summaries as
    there are shards, and once it holds that many the gate is closed. *)
Theorem set_never_outgrows_the_shards
    (leaves_phase : forall s,
       CheckState (RunConsensusOnFinalBlock s) PROCESS_MICROBLOCKSUBMISSION = false)
    (trigger_keeps_the_shards :
       forall s, m_shards (RunConsensusOnFinalBlock s) = m_shards s)
    (calls : list (list Byte.byte * nat * Peer)) (s : DirectoryService) :
  (length (m_microBlocks s) < length (m_shards s))%nat ->
  forall i r,
    ProcessAll calls s !! i = Some r ->
    m_shards (final r) = m_shards s
    /\ (length (m_microBlocks (final r)) <= length (m_shards s))%nat
    /\ (length (m_microBlocks (final r)) = length (m_shards s) ->
        CheckState (final r) PROCESS_MICROBLOCKSUBMISSION = false).
Proof.
  intros Hstart.
  assert (Hinv : forall calls s0,
            (length (m_microBlocks s0) < length (m_shards s0))%nat
            \/ ((length (m_microBlocks s0) <= length (m_shards s0))%nat
                /\ CheckState s0 PROCESS_MICROBLOCKSUBMISSION = false) ->
            forall i r,
              ProcessAll calls s0 !! i = Some r ->
              m_shards (final r) = m_shards s0
              /\ ((length (m_microBlocks (final r)) < length (m_shards s0))%nat
                  \/ ((length (m_microBlocks (final r)) <= length (m_shards s0))%nat
                      /\ CheckState (final r) PROCESS_MICROBLOCKSUBMISSION = false))).
  { clear calls s Hstart.
    induction calls as [|c calls IH]; intros s0 Hs0 i r Hi;
      cbn [ProcessAll] in Hi; [destruct i; discriminate|].
    set (r0 := ProcessMicroblockSubmission c.1.1 c.1.2 c.2 s0) in *.
    assert (Hr0 : m_shards (final r0) = m_shards s0
                  /\ ((length (m_microBlocks (final r0)) < length (m_shards s0))%nat
                      \/ ((length (m_microBlocks (final r0)) <= length (m_shards s0))%nat
                          /\ CheckState (final r0) PROCESS_MICROBLOCKSUBMISSION = false))).
    { pose proof (process_triggers c.1.1 c.1.2 c.2 s0) as Hcases.
      cbv zeta in Hcases. fold r0 in Hcases.
      destruct (CheckState s0 PROCESS_MICROBLOCKSUBMISSION) eqn:Hgate.
      - destruct Hs0 as [Hlt|[_ Hclosed]]; [|discriminate].
        pose proof (set_insert_length
                      (MicroBlock_from c.1.1
                         (c.1.2 + sizeof_uint256_t + sizeof_uint32_t + sizeof_uint32_t))
                      (m_microBlocks s0)) as Hgrow.
        destruct Hcases as [[_ [Hdone Hfail]]|[_ [_ [Hfinal Hfull]]]].
        + destruct (outcome r0) as [[]|e|x] eqn:Hout.
          * destruct (Hdone eq_refl) as [Hfinal Hne]. rewrite Hfinal.
            cbn in Hne |- *. split; [reflexivity|]. left. lia.
          * rewrite Hfail by discriminate. split; [reflexivity|]. left. exact Hlt.
          * rewrite Hfail by discriminate. split; [reflexivity|]. left. exact Hlt.
        + rewrite Hfinal, trigger_keeps_the_shards, trigger_keeps_the_set, leaves_phase.
          cbn in Hfull |- *. split; [reflexivity|]. right. split; [lia|reflexivity].
      - unfold r0. rewrite (process_wrong_phase _ _ _ _ Hgate). cbn [final].
        split; [reflexivity|]. destruct Hs0 as [Hlt|[Hle _]]; [left; exact Hlt|].
        right. split; assumption. }
    destruct Hr0 as [Hshards0 Hr0].
    destruct i as [|i]; cbn [lookup list_lookup] in Hi.
    - injection Hi as <-. split; assumption.
    - rewrite <- Hshards0 in Hr0 |- *. exact (IH (final r0) Hr0 i r Hi). }
  intros i r Hi.
  destruct (Hinv calls s (or_introl Hstart) i r Hi) as [Hshards Hsize].
  split; [exact Hshards|].
  destruct Hsize as [Hlt|[Hle Hclosed]]; split; try lia.
  intros _. exact Hclosed.
Qed.

End Sequences.

End Further.

(** ** The properties on concrete submissions

    The collaborators are those of [Sample]: two or three shards, block
    number 4 closing, consensus id 7. *)

Import Sample.

(** A round of two shards: the second accepted summary completes the set
    and starts the consensus; a third submission meets the closed gate. *)
Example round_of_two_shards :
  let runs := ProcessAll (from_start [msgA; msgB; msgA']) ds0 in
  map outcome runs = [Done tt; Done tt; Failed WrongPhase]
  /\ map (fun r => triggers (trace r)) runs = [0; 1; 0]%nat
  /\ map (fun r => length (m_microBlocks (final r))) runs = [1; 2; 2]%nat.
Proof. vm_compute. repeat split. Qed.

(** With a trigger that leaves the phase as it is, the completing
    submission sent again is accepted again, the set keeps its size, and
    the trigger is called a second time. *)
Example idle_trigger_is_called_again :
  let runs :=
    @ProcessAll primitives idle_coordinator
      (from_start [msgA; msgB; msgB]) ds0 in
  map outcome runs = [Done tt; Done tt; Done tt]
  /\ map (fun r => triggers (trace r)) runs = [0; 1; 1]%nat
  /\ map (fun r => length (m_microBlocks (final r))) runs = [1; 2; 2]%nat.
Proof. vm_compute. repeat split. Qed.

(** The scenario of section 8: roster of four, threshold three; three
    signers with their aggregate signature are accepted, two are not. *)
Example three_of_four_accepted :
  NumForConsensus 4 = 3%nat
  /\ outcome (VerifyMicroblockCoSignature (block_of msgA) 0 ds0) = Done tt
  /\ outcome (VerifyMicroblockCoSignature (block_of msgTwo) 0 ds0)
     = Failed InsufficientSigners.
Proof. vm_compute. repeat split. Qed.

Lemma block_lt_strict_weak_order : StrictWeakOrder.
Proof.
  split; cbn; unfold equivalent; cbn; unfold block_lt.
  - intros x. rewrite !Z.ltb_irrefl, Z.eqb_refl. reflexivity.
  - intros x y z.
    rewrite !orb_true_iff, !andb_true_iff, !Z.ltb_lt, !Z.eqb_eq. lia.
  - intros x y z.
    rewrite !andb_true_iff, !negb_true_iff, !orb_false_iff, !andb_false_iff,
      !Z.ltb_ge, !Z.eqb_neq. lia.
Qed.



(** C2 on the three-signer submission of shard 0. *)
Lemma signer_count_must_equal_threshold_witness :
  m_shards ds0 !! Z.to_nat 0 = Some shardA
  /\ (length shardA <= length (GetHeaderSigBitmap (block_of msgA)))%nat
  /\ (outcome (VerifyMicroblockCoSignature (block_of msgA) 0 ds0)
      = Failed InsufficientSigners
      <-> length (signers (GetHeaderSigBitmap (block_of msgA)) shardA 0)
          <> NumForConsensus (length (GetHeaderSigBitmap (block_of msgA)))).
Proof.
  assert (Hshard : m_shards ds0 !! Z.to_nat 0 = Some shardA) by reflexivity.
  assert (Hlen : (length shardA <= length (GetHeaderSigBitmap (block_of msgA)))%nat)
    by (vm_compute; lia).
  split; [exact Hshard|]. split; [exact Hlen|].
  exact (proj1 (proj2 (proj2
           (signer_count_must_equal_threshold (block_of msgA) 0 shardA ds0 Hshard Hlen)))).
Defined.

(** The claim of C2 fails on the code: all four members of shard 0 sign,
    the aggregate signature verifies, four is not below the threshold of
    three, and the verifier still fails with InsufficientSigners, before any
    key is aggregated. The same four signers under a bitmap of five
    positions are accepted: the threshold follows the bitmap's length. *)
Lemma four_signers_of_four_are_refused :
  let microBlock := block_of msgAll in
  let bitmap := GetHeaderSigBitmap microBlock in
  let r := VerifyMicroblockCoSignature microBlock 0 ds0 in
  length bitmap = length shardA
  /\ count_true bitmap = 4%nat
  /\ NumForConsensus (length shardA) = 3%nat
  /\ Schnorr_Verify (Serialize microBlock) (GetHeaderSig microBlock) (11 + 12 + 13 + 14)
     = true
  /\ outcome r = Failed InsufficientSigners
  /\ ~ (outcome r = Failed InsufficientSigners
        <-> (count_true bitmap < NumForConsensus (length shardA))%nat)
  /\ ~ In CallSchnorrVerify (trace r)
  /\ length (GetHeaderSigBitmap (block_of msgFive)) = 5%nat
  /\ NumForConsensus 5 = 4%nat
  /\ outcome (VerifyMicroblockCoSignature (block_of msgFive) 0 ds0) = Done tt.
Proof.
  vm_compute. repeat split; try (intros [Hto _]; specialize (Hto eq_refl); lia).
  intros Hin. repeat (destruct Hin as [Hin|Hin]; [discriminate|]). exact Hin.
Qed.

(** C3 on the summary of shard 0, sent to an object that holds it. *)
Lemma batch_is_a_set_of_summaries_witness :
  StrictWeakOrder
  /\ set_insert (block_of msgA) (set_insert (block_of msgA) []) 
     = set_insert (block_of msgA) [].
Proof.
  split; [exact block_lt_strict_weak_order|].
  exact (proj1 (proj2 (proj2 (proj2 (proj2
           (batch_is_a_set_of_summaries block_lt_strict_weak_order msgA 0%nat sender ds0)))))).
Defined.

(** The claim of C3 fails on the code: two summaries of shard 0, with
    different content, are both accepted; neither call reports a duplicate
    and the set holds two summaries of the same producer. The same summary
    sent twice is accepted twice as well, the set keeping one copy. *)
Lemma second_summary_of_a_shard_is_accepted :
  let runs := ProcessAll (from_start [msgA; msgA']) ds3 in
  let again := ProcessAll (from_start [msgA; msgA]) ds3 in
  map (fun r => returned (outcome r)) runs = [Some true; Some true]
  /\ map (fun r => map GetMinerPubKey (m_microBlocks (final r))) runs
     = [[11]; [11; 11]]
  /\ m_publicKeyToShardIdMap ds3 !! 11 = Some 0
  /\ map (fun r => returned (outcome r)) again = [Some true; Some true]
  /\ map (fun r => length (m_microBlocks (final r))) again = [1; 1]%nat.
Proof. vm_compute. repeat split. Qed.

(** C4 on a bitmap of three positions for the roster of four. *)
Lemma bitmap_length_is_not_compared_witness :
  m_shards ds0 !! Z.to_nat 0 = Some shardA
  /\ (length (GetHeaderSigBitmap (block_of msgShort)) < length shardA)%nat
  /\ VerifyMicroblockCoSignature (block_of msgShort) 0 ds0
     = mkRun ([CallVerifyMicroblockCoSignature; CallShardsAt 0]
              ++ map CallBitmapAt (seq 0 (length (GetHeaderSigBitmap (block_of msgShort))))
              ++ [CallBitmapAt (length (GetHeaderSigBitmap (block_of msgShort)))])
             (Threw out_of_range) ds0.
Proof.
  assert (Hshard : m_shards ds0 !! Z.to_nat 0 = Some shardA) by reflexivity.
  assert (Hlen : (length (GetHeaderSigBitmap (block_of msgShort)) < length shardA)%nat)
    by (vm_compute; lia).
  split; [exact Hshard|]. split; [exact Hlen|].
  exact (proj1 (bitmap_length_is_not_compared (block_of msgShort) 0 shardA ds0 Hshard)
           Hlen).
Defined.

(** The claim of C4 fails on the code: a bitmap of four positions for the
    roster of three of shard 2 is not refused; signers are selected, their
    keys aggregated, the signature checked, and the verifier returns
    [true]. A bitmap of three positions for the roster of four does not
    fail either: the call is left by the exception of the fourth lookup. *)
Lemma longer_bitmap_is_accepted :
  let long := VerifyMicroblockCoSignature (block_of msgLong) 2 ds3 in
  let short := VerifyMicroblockCoSignature (block_of msgShort) 0 ds0 in
  length (GetHeaderSigBitmap (block_of msgLong)) = 4%nat
  /\ length shardC = 3%nat
  /\ returned (outcome long) = Some true
  /\ trace long
     = [CallVerifyMicroblockCoSignature; CallShardsAt 2; CallBitmapAt 0;
        CallBitmapAt 1; CallBitmapAt 2; CallNumForConsensus 4;
        CallAggregatePubKeys 3; CallSchnorrVerify]
  /\ returned (outcome short) = None
  /\ trace short
     = [CallVerifyMicroblockCoSignature; CallShardsAt 0; CallBitmapAt 0;
        CallBitmapAt 1; CallBitmapAt 2; CallBitmapAt 3].
Proof. vm_compute. repeat split. Qed.

(** C5 on a submission that arrives while the consensus runs. *)
Lemma failed_call_changes_nothing_witness :
  CheckState ds_busy PROCESS_MICROBLOCKSUBMISSION = false
  /\ outcome (ProcessMicroblockSubmission msgA 0 sender ds_busy) = Failed WrongPhase
  /\ final (ProcessMicroblockSubmission msgA 0 sender ds_busy) = ds_busy.
Proof.
  assert (Hgate : CheckState ds_busy PROCESS_MICROBLOCKSUBMISSION = false) by reflexivity.
  split; [exact Hgate|].
  exact (proj1 (failed_call_changes_nothing msgA 0%nat sender ds_busy) Hgate).
Defined.

(** C6 on a producer key that no shard holds. *)
Lemma producer_must_belong_to_the_shard_witness :
  CheckState ds0 PROCESS_MICROBLOCKSUBMISSION = true
  /\ IsMessageSizeInappropriate (length msgUnknown) 0
       (sizeof_uint256_t + sizeof_uint32_t + sizeof_uint32_t + TxBlock_GetMinSize) = false
  /\ CheckWhetherDSBlockIsFresh ds0
       (uint256_t (GetNumber msgUnknown 0 sizeof_uint256_t + 1)) = true
  /\ GetNumber msgUnknown (0 + sizeof_uint256_t) sizeof_uint32_t = m_consensusID ds0
  /\ m_publicKeyToShardIdMap ds0 !! GetMinerPubKey (block_of msgUnknown) = None
  /\ ProcessMicroblockSubmission msgUnknown 0 sender ds0
     = mkRun (decode_events msgUnknown 0) (Failed UnknownProducer) ds0.
Proof.
  assert (Hgate : CheckState ds0 PROCESS_MICROBLOCKSUBMISSION = true) by reflexivity.
  assert (Hsize : IsMessageSizeInappropriate (length msgUnknown) 0
            (sizeof_uint256_t + sizeof_uint32_t + sizeof_uint32_t + TxBlock_GetMinSize)
          = false) by reflexivity.
  assert (Hfresh : CheckWhetherDSBlockIsFresh ds0
            (uint256_t (GetNumber msgUnknown 0 sizeof_uint256_t + 1)) = true)
    by reflexivity.
  assert (Hround : GetNumber msgUnknown (0 + sizeof_uint256_t) sizeof_uint32_t
                   = m_consensusID ds0) by reflexivity.
  assert (Hnone : m_publicKeyToShardIdMap ds0 !! GetMinerPubKey (block_of msgUnknown)
                  = None) by reflexivity.
  repeat (split; [assumption|]).
  exact (proj1 (producer_must_belong_to_the_shard msgUnknown 0%nat sender ds0
                  Hgate Hsize Hfresh Hround) Hnone).
Defined.

(** C7 on the empty message in the submission phase. *)
Lemma short_message_is_rejected_unread_witness :
  (length (@nil Byte.byte) - 0
   < sizeof_uint256_t + sizeof_uint32_t + sizeof_uint32_t + TxBlock_GetMinSize)%nat
  /\ CheckState ds0 PROCESS_MICROBLOCKSUBMISSION = true
  /\ ProcessMicroblockSubmission [] 0 sender ds0
     = mkRun [CallCheckState; CallIsMessageSizeInappropriate] (Failed TooShort) ds0.
Proof.
  assert (Hshort : (length (@nil Byte.byte) - 0
            < sizeof_uint256_t + sizeof_uint32_t + sizeof_uint32_t + TxBlock_GetMinSize)%nat)
    by (vm_compute; lia).
  assert (Hgate : CheckState ds0 PROCESS_MICROBLOCKSUBMISSION = true) by reflexivity.
  split; [exact Hshort|]. split; [exact Hgate|].
  exact (proj1 (short_message_is_rejected_unread [] 0%nat sender ds0 Hshort) Hgate).
Defined.

(** The claim of C7 fails on the code: the empty message, processed while
    the consensus runs, is shorter than the fixed header and is rejected
    with WrongPhase, not TooShort; the size check is not reached. *)
Lemma short_message_meets_the_gate_first :
  (length (@nil Byte.byte) - 0
   < sizeof_uint256_t + sizeof_uint32_t + sizeof_uint32_t)%nat
  /\ ProcessMicroblockSubmission [] 0 sender ds_busy
     = mkRun [CallCheckState] (Failed WrongPhase) ds_busy
  /\ outcome (ProcessMicroblockSubmission [] 0 sender ds_busy) <> Failed TooShort.
Proof.
  split; [vm_compute; lia|]. split; [reflexivity|]. discriminate.
Qed.

(** C8 on a submission whose block number is 9 while 5 is expected. *)
Lemma block_number_plus_one_must_be_fresh_witness :
  CheckState ds0 PROCESS_MICROBLOCKSUBMISSION = true
  /\ IsMessageSizeInappropriate (length msgStale) 0
       (sizeof_uint256_t + sizeof_uint32_t + sizeof_uint32_t + TxBlock_GetMinSize) = false
  /\ (outcome (ProcessMicroblockSubmission msgStale 0 sender ds0) = Failed StaleRound
      <-> CheckWhetherDSBlockIsFresh ds0
            (uint256_t (GetNumber msgStale 0 sizeof_uint256_t + 1)) = false).
Proof.
  assert (Hgate : CheckState ds0 PROCESS_MICROBLOCKSUBMISSION = true) by reflexivity.
  assert (Hsize : IsMessageSizeInappropriate (length msgStale) 0
            (sizeof_uint256_t + sizeof_uint32_t + sizeof_uint32_t + TxBlock_GetMinSize)
          = false) by reflexivity.
  split; [exact Hgate|]. split; [exact Hsize|].
  exact (proj1 (block_number_plus_one_must_be_fresh msgStale 0%nat sender ds0 Hgate Hsize)).
Defined.

(** The stale submission is refused after the block number alone was read. *)
Example stale_submission :
  GetNumber msgStale 0 sizeof_uint256_t = 9
  /\ ProcessMicroblockSubmission msgStale 0 sender ds0
     = mkRun [CallCheckState; CallIsMessageSizeInappropriate;
              CallGetNumber 0 32; CallCheckWhetherDSBlockIsFresh 10]
             (Failed StaleRound) ds0.
Proof. split; reflexivity. Qed.

(** C9 on two objects that share the roster of shard 0. *)
Lemma verification_depends_only_on_its_inputs_witness :
  m_shards ds0 !! Z.to_nat 0 = m_shards ds3 !! Z.to_nat 0
  /\ outcome (VerifyMicroblockCoSignature (block_of msgA) 0 ds0)
     = outcome (VerifyMicroblockCoSignature (block_of msgA) 0 ds3).
Proof.
  split; [reflexivity|].
  exact (proj1 (verification_depends_only_on_its_inputs
                  (block_of msgA) (block_of msgA) 0 0 ds0 ds3
                  eq_refl eq_refl eq_refl eq_refl)).
Defined.

(** C10 on the bitmap of three positions and the roster of four. *)
Lemma bitmap_lookups_follow_the_roster_witness :
  (length [true; true; true] < length shardA)%nat
  /\ outcome (VerifyMicroblockCoSignature_loop [true; true; true] shardA 0 0 [] ds0)
     = Threw out_of_range
  /\ ([true; true; true] : list bool) !! 3%nat = None.
Proof.
  assert (Hlen : (length [true; true; true] < length shardA)%nat) by (vm_compute; lia).
  split; [exact Hlen|].
  pose proof (proj2 (bitmap_lookups_follow_the_roster [true; true; true] shardA ds0) Hlen)
    as Hloop.
  split; [exact (proj1 (proj2 (proj2 Hloop)))|exact (proj1 (proj2 Hloop))].
Defined.

(** ** The further properties on concrete submissions *)

(** X1 on the three-signer submission of shard 0. *)
Lemma verifier_accepts_exactly_a_valid_quorum_witness :
  outcome (VerifyMicroblockCoSignature (block_of msgA) 0 ds0) = Done tt
  /\ exists shard aggregatedKey,
       m_shards ds0 !! Z.to_nat 0 = Some shard
       /\ (length shard <= length (GetHeaderSigBitmap (block_of msgA)))%nat
       /\ length (signers (GetHeaderSigBitmap (block_of msgA)) shard 0)
          = NumForConsensus (length (GetHeaderSigBitmap (block_of msgA)))
       /\ AggregatePubKeys (signers (GetHeaderSigBitmap (block_of msgA)) shard 0)
          = Some aggregatedKey
       /\ Schnorr_Verify (Serialize (block_of msgA)) (GetHeaderSig (block_of msgA))
            aggregatedKey = true.
Proof.
  assert (Hout : outcome (VerifyMicroblockCoSignature (block_of msgA) 0 ds0) = Done tt)
    by reflexivity.
  split; [exact Hout|].
  exact (proj1 (verifier_accepts_exactly_a_valid_quorum (block_of msgA) 0 ds0) Hout).
Defined.

(** X2 on the bitmap 1101 and the roster of shard 0. *)
Lemma loop_selects_the_flagged_members_witness :
  (length shardA <= length [true; true; false; true])%nat
  /\ outcome (VerifyMicroblockCoSignature_loop [true; true; false; true] shardA 0 0 [] ds0)
     = Done ([11; 12; 14], 3%nat).
Proof.
  assert (Hlen : (length shardA <= length [true; true; false; true])%nat)
    by (vm_compute; lia).
  split; [exact Hlen|].
  exact (proj1 (proj2 (proj2
           (loop_selects_the_flagged_members [true; true; false; true] shardA ds0)))
           Hlen).
Defined.

(** X3 on the three-signer submission of shard 0. *)
Lemma keys_are_aggregated_only_for_a_quorum_witness :
  In (CallAggregatePubKeys 3) (trace (VerifyMicroblockCoSignature (block_of msgA) 0 ds0))
  /\ exists shard,
       m_shards ds0 !! Z.to_nat 0 = Some shard
       /\ 3%nat = length (signers (GetHeaderSigBitmap (block_of msgA)) shard 0)
       /\ 3%nat = NumForConsensus (length (GetHeaderSigBitmap (block_of msgA)))
       /\ (1 <= 3 <= length shard)%nat.
Proof.
  assert (Hin : In (CallAggregatePubKeys 3)
                   (trace (VerifyMicroblockCoSignature (block_of msgA) 0 ds0)))
    by (vm_compute; do 7 right; left; reflexivity).
  split; [exact Hin|].
  exact (proj1 (keys_are_aggregated_only_for_a_quorum (block_of msgA) 0 ds0) 3%nat Hin).
Defined.

(** X4 on the roster of three under a bitmap of five positions. *)
Lemma roster_below_threshold_is_refused_witness :
  m_shards ds3 !! Z.to_nat 2 = Some shardC
  /\ (length shardC <= length (GetHeaderSigBitmap (block_of msgWide)))%nat
  /\ (length shardC < NumForConsensus (length (GetHeaderSigBitmap (block_of msgWide))))%nat
  /\ outcome (VerifyMicroblockCoSignature (block_of msgWide) 2 ds3)
     = Failed InsufficientSigners.
Proof.
  assert (Hshard : m_shards ds3 !! Z.to_nat 2 = Some shardC) by reflexivity.
  assert (Hle : (length shardC <= length (GetHeaderSigBitmap (block_of msgWide)))%nat)
    by (vm_compute; lia).
  assert (Hlt : (length shardC
                 < NumForConsensus (length (GetHeaderSigBitmap (block_of msgWide))))%nat)
    by (vm_compute; lia).
  repeat (split; [assumption|]).
  exact (f_equal outcome
           (proj1 (roster_below_threshold_is_refused (block_of msgWide) 2 shardC ds3 Hshard)
              Hle Hlt)).
Defined.

(** X5 on the accepted submission of shard 0. *)
Lemma submission_is_accepted_iff_every_check_passes_witness :
  outcome (ProcessMicroblockSubmission msgA 0 sender ds0) = Done tt
  /\ final (ProcessMicroblockSubmission msgA 0 sender ds0)
     = commit_final (insert_microBlock ds0 (block_of msgA)).
Proof.
  assert (Hout : outcome (ProcessMicroblockSubmission msgA 0 sender ds0) = Done tt)
    by reflexivity.
  split; [exact Hout|].
  exact (proj2 (submission_is_accepted_iff_every_check_passes msgA 0%nat sender ds0) Hout).
Defined.

(** X6 on a submission for consensus id 8 while the object is at 7. *)
Lemma other_consensus_round_is_refused_witness :
  CheckState ds0 PROCESS_MICROBLOCKSUBMISSION = true
  /\ IsMessageSizeInappropriate (length msgOtherRound) 0
       (sizeof_uint256_t + sizeof_uint32_t + sizeof_uint32_t + TxBlock_GetMinSize) = false
  /\ CheckWhetherDSBlockIsFresh ds0
       (uint256_t (GetNumber msgOtherRound 0 sizeof_uint256_t + 1)) = true
  /\ GetNumber msgOtherRound (0 + sizeof_uint256_t) sizeof_uint32_t <> m_consensusID ds0
  /\ outcome (ProcessMicroblockSubmission msgOtherRound 0 sender ds0)
     = Failed RoundMismatch.
Proof.
  assert (Hgate : CheckState ds0 PROCESS_MICROBLOCKSUBMISSION = true) by reflexivity.
  assert (Hsize : IsMessageSizeInappropriate (length msgOtherRound) 0
            (sizeof_uint256_t + sizeof_uint32_t + sizeof_uint32_t + TxBlock_GetMinSize)
          = false) by reflexivity.
  assert (Hfresh : CheckWhetherDSBlockIsFresh ds0
            (uint256_t (GetNumber msgOtherRound 0 sizeof_uint256_t + 1)) = true)
    by reflexivity.
  assert (Hne : GetNumber msgOtherRound (0 + sizeof_uint256_t) sizeof_uint32_t
                <> m_consensusID ds0) by (vm_compute; discriminate).
  repeat (split; [assumption|]).
  exact (proj2 (proj1 (other_consensus_round_is_refused msgOtherRound 0%nat sender ds0
                         Hgate Hsize Hfresh)) Hne).
Defined.

(** X7 on a registry that names a shard id past the two shards. *)
Lemma verifier_result_decides_the_call_witness :
  CheckState ds_gap PROCESS_MICROBLOCKSUBMISSION = true
  /\ m_publicKeyToShardIdMap ds_gap !! GetMinerPubKey (block_of msgGap) = Some 5
  /\ m_shards ds_gap !! Z.to_nat 5 = None
  /\ returned (outcome (ProcessMicroblockSubmission msgGap 0 sender ds_gap)) = None.
Proof.
  assert (Hgate : CheckState ds_gap PROCESS_MICROBLOCKSUBMISSION = true) by reflexivity.
  assert (Hsize : IsMessageSizeInappropriate (length msgGap) 0
            (sizeof_uint256_t + sizeof_uint32_t + sizeof_uint32_t + TxBlock_GetMinSize)
          = false) by reflexivity.
  assert (Hfresh : CheckWhetherDSBlockIsFresh ds_gap
            (uint256_t (GetNumber msgGap 0 sizeof_uint256_t + 1)) = true)
    by reflexivity.
  assert (Hround : GetNumber msgGap (0 + sizeof_uint256_t) sizeof_uint32_t
                   = m_consensusID ds_gap) by reflexivity.
  assert (Hfind : m_publicKeyToShardIdMap ds_gap !! GetMinerPubKey (block_of msgGap)
                  = Some 5) by reflexivity.
  assert (Hnone : m_shards ds_gap !! Z.to_nat 5 = None) by reflexivity.
  split; [exact Hgate|]. split; [exact Hfind|]. split; [exact Hnone|].
  exact (proj2 (proj2 (proj2 (proj2
           (verifier_result_decides_the_call msgGap 0%nat sender ds_gap
              Hgate Hsize Hfresh Hround Hfind))) Hnone)).
Defined.

(** X8 on the first accepted submission of a round of two shards. *)
Lemma only_the_set_is_written_witness :
  triggers (trace (ProcessMicroblockSubmission msgA 0 sender ds0)) = 0%nat
  /\ m_shards (final (ProcessMicroblockSubmission msgA 0 sender ds0)) = m_shards ds0.
Proof.
  assert (Hzero : triggers (trace (ProcessMicroblockSubmission msgA 0 sender ds0)) = 0%nat)
    by reflexivity.
  split; [exact Hzero|].
  exact (proj1 (proj2 (proj2 (only_the_set_is_written msgA 0%nat sender ds0 Hzero)))).
Defined.

(** X9 on the first accepted submission of a round of two shards. *)
Lemma accepted_submission_can_be_replayed_witness :
  outcome (ProcessMicroblockSubmission msgA 0 sender ds0) = Done tt
  /\ triggers (trace (ProcessMicroblockSubmission msgA 0 sender ds0)) = 0%nat
  /\ outcome (ProcessMicroblockSubmission msgA 0 sender
                (final (ProcessMicroblockSubmission msgA 0 sender ds0))) = Done tt
  /\ final (ProcessMicroblockSubmission msgA 0 sender
              (final (ProcessMicroblockSubmission msgA 0 sender ds0)))
     = final (ProcessMicroblockSubmission msgA 0 sender ds0).
Proof.
  assert (Hout : outcome (ProcessMicroblockSubmission msgA 0 sender ds0) = Done tt)
    by reflexivity.
  assert (Hzero : triggers (trace (ProcessMicroblockSubmission msgA 0 sender ds0)) = 0%nat)
    by reflexivity.
  split; [exact Hout|]. split; [exact Hzero|].
  pose proof (accepted_submission_can_be_replayed msgA 0%nat sender ds0
                (lt_irrefl block_lt_strict_weak_order _) eq_refl (fun n => eq_refl)
                Hout Hzero) as Hreplay.
  split; [exact (proj1 Hreplay)|exact (proj1 (proj2 Hreplay))].
Defined.

(** X10 on the round of two shards. *)
Lemma set_stays_ordered_and_keeps_its_summaries_witness :
  (forall s, m_microBlocks (RunConsensusOnFinalBlock s) = m_microBlocks s)
  /\ ordered (m_microBlocks ds0)
  /\ forall r, ProcessAll (from_start [msgA; msgB; msgA']) ds0 !! 1%nat = Some r ->
       ordered (m_microBlocks (final r)).
Proof.
  split; [intros s; reflexivity|]. split; [exact I|].
  intros r Hr.
  exact (proj1 (set_stays_ordered_and_keeps_its_summaries
                  (fun s => eq_refl) block_lt_strict_weak_order
                  (from_start [msgA; msgB; msgA']) ds0 I 1%nat r Hr)).
Defined.

(** X11 on the round of two shards. *)
Lemma set_never_outgrows_the_shards_witness :
  (length (m_microBlocks ds0) < length (m_shards ds0))%nat
  /\ forall r, ProcessAll (from_start [msgA; msgB; msgA']) ds0 !! 2%nat = Some r ->
       (length (m_microBlocks (final r)) <= length (m_shards ds0))%nat.
Proof.
  assert (Hstart : (length (m_microBlocks ds0) < length (m_shards ds0))%nat)
    by (vm_compute; lia).
  split; [exact Hstart|].
  intros r Hr.
  exact (proj1 (proj2 (set_never_outgrows_the_shards
                         (fun s => eq_refl) (fun s => eq_refl) (fun s => eq_refl)
                         (from_start [msgA; msgB; msgA']) ds0 Hstart 2%nat r Hr))).
Defined.
